(** * Printer Service Logger: the persistence core of [app.py]

    A shallow embedding of the SQLite-backed persistence operations of
    [app.py] (schema creation and migration, printer and service-log CRUD,
    unique identifier probing, sorted retrieval) together with the
    properties the specification states about them.

    Modelling conventions.
    - A Python [str] is a [string]; its characters are the code points
      below 256.  SQLite compares TEXT with the BINARY collation, which on
      UTF-8 coincides with the code point order used here.
    - A SQLite table is the list of its rows in scan order; a nullable
      column is an [option].
    - A persistence operation is a function from the store to an outcome
      and the store left behind; [with get_connection() as conn] commits
      when the body returns and rolls back when it raises. *)

From Stdlib Require Import ZArith Ascii String.
From stdpp Require Import base tactics option list sorting strings pretty gmap.

Local Open Scope Z_scope.

(** ** Python values and strings *)

Module Py.

(** The two kinds of value the callers pass for [hours]: the text of the
    form field, or the integer read back from the table. *)
Inductive value :=
| Str (s : string)
| Int (z : Z).

Definition code (c : ascii) : N := N_of_ascii c.

(** [str.isspace] on the code points below 256. *)
Definition isspace (c : ascii) : bool :=
  let n := code c in
  ((9 <=? n) && (n <=? 13) || (28 <=? n) && (n <=? 32)
   || (n =? 133) || (n =? 160))%N.

Fixpoint lstrip_by (sp : ascii → bool) (s : string) : string :=
  match s with
  | EmptyString => EmptyString
  | String c r => if sp c then lstrip_by sp r else s
  end.

Fixpoint rstrip_by (sp : ascii → bool) (s : string) : string :=
  match s with
  | EmptyString => EmptyString
  | String c r =>
      match rstrip_by sp r with
      | EmptyString => if sp c then EmptyString else String c EmptyString
      | r' => String c r'
      end
  end.

(** [s.strip()] *)
Definition strip (s : string) : string := rstrip_by isspace (lstrip_by isspace s).

(** [x or d] on an optional string: [None] and the empty string are falsy. *)
Definition str_or (x : option string) (d : string) : string :=
  match x with
  | Some (String c r) => String c r
  | _ => d
  end.

(** [str(v)] *)
Definition str (v : value) : string :=
  match v with
  | Str s => s
  | Int z => pretty z
  end.

(** *** [int(text)]

    CPython accepts optional white space, an optional sign, and decimal
    digits separated by single underscores.  White space here is what
    [PyLong_FromString] skips: the C locale white space, and the non-ASCII
    spaces that are turned into blanks beforehand. *)
Definition int_isspace (c : ascii) : bool :=
  let n := code c in
  ((9 <=? n) && (n <=? 13) || (n =? 32) || (n =? 133) || (n =? 160))%N.

Definition digit (c : ascii) : option Z :=
  let n := code c in
  if ((48 <=? n) && (n <=? 57))%N then Some (Z.of_N n - 48) else None.

(** Digits with single interior underscores; [after_digit] tells whether
    the previous character was a digit, [count] is the number of digits
    seen.  Returns the value and the number of digits. *)
Fixpoint digits (s : string) (after_digit : bool) (acc : Z) (count : nat)
  : option (Z * nat) :=
  match s with
  | EmptyString => if after_digit then Some (acc, count) else None
  | String c r =>
      match digit c with
      | Some d => digits r true (10 * acc + d) (S count)
      | None =>
          if (code c =? 95)%N && after_digit
          then digits r false acc count
          else None
      end
  end.

(** [sys.int_info.default_max_str_digits] *)
Definition max_str_digits : nat := 4300.

Definition int_of_digits (sign : Z) (s : string) : option Z :=
  match digits s false 0 0 with
  | Some (n, count) =>
      if decide (count ≤ max_str_digits)%nat then Some (sign * n) else None
  | None => None
  end.

Definition int_of_str (s : string) : option Z :=
  match rstrip_by int_isspace (lstrip_by int_isspace s) with
  | String "+" r => int_of_digits 1 r
  | String "-" r => int_of_digits (-1) r
  | t => int_of_digits 1 t
  end.

(** [int(v)]: [None] stands for the [ValueError] it raises. *)
Definition int (v : value) : option Z :=
  match v with
  | Str s => int_of_str s
  | Int z => Some z
  end.

End Py.

(** ** Exceptions and outcomes *)

(** The exception classes the persistence operations can raise.
    [IntegrityError] is [sqlite3.IntegrityError], raised by the store for
    every violated constraint; [OverflowError] is raised when a Python
    integer does not fit SQLite's 64-bit INTEGER; [OperationalError] is
    [sqlite3.OperationalError], raised for a statement the schema refuses. *)
Inductive exn :=
| ValueError (msg : string)
| IntegrityError (msg : string)
| OverflowError (msg : string)
| OperationalError (msg : string).

Inductive exn_class :=
  ValueErrorC | IntegrityErrorC | OverflowErrorC | OperationalErrorC.

Definition class_of (e : exn) : exn_class :=
  match e with
  | ValueError _ => ValueErrorC
  | IntegrityError _ => IntegrityErrorC
  | OverflowError _ => OverflowErrorC
  | OperationalError _ => OperationalErrorC
  end.

Inductive result (A : Type) :=
| Ok (a : A)
| Raise (e : exn).
Arguments Ok {A} a.
Arguments Raise {A} e.

Global Instance result_ret : MRet result := λ A a, Ok a.
Global Instance result_bind : MBind result := λ A B k r,
  match r with
  | Ok a => k a
  | Raise e => Raise e
  end.

(** ** The store

    The two tables of the schema created by [initialize_database], at the
    current schema.  [printers_seq] and [service_logs_seq] are the
    AUTOINCREMENT counters SQLite keeps in [sqlite_sequence]. *)

Record printer_row := {
  p_id : Z;                      (* id INTEGER PRIMARY KEY AUTOINCREMENT *)
  printer_id : string;           (* printer_id TEXT NOT NULL UNIQUE *)
  name : string;                 (* name TEXT NOT NULL *)
  manufacturer : option string;  (* manufacturer TEXT *)
  model : option string;         (* model TEXT *)
  hours : option Z;              (* hours INTEGER DEFAULT 0 *)
  nozzle_type : option string;   (* nozzle_type TEXT *)
  ams : option Z                 (* ams INTEGER DEFAULT 0 *)
}.

Record log_row := {
  l_id : Z;                      (* id INTEGER PRIMARY KEY AUTOINCREMENT *)
  printer_id_fk : Z;             (* printer_id_fk INTEGER NOT NULL REFERENCES printers(id) *)
  note : string;                 (* note TEXT NOT NULL *)
  created_at : option string     (* created_at TEXT DEFAULT (datetime('now')) *)
}.

Record store := {
  printers : list printer_row;
  printers_seq : Z;
  service_logs : list log_row;
  service_logs_seq : Z
}.

Global Instance printer_row_eq_dec : EqDecision printer_row.
Proof. solve_decision. Defined.
Global Instance log_row_eq_dec : EqDecision log_row.
Proof. solve_decision. Defined.
Global Instance store_eq_dec : EqDecision store.
Proof. solve_decision. Defined.

Definition empty_store : store :=
  {| printers := []; printers_seq := 0; service_logs := []; service_logs_seq := 0 |}.

(** ** Connections

    [sqlite3.connect] opens a connection on which foreign-key enforcement
    is off, SQLite's default; [PRAGMA foreign_keys = ON] turns it on for
    that connection only. *)

Record connection := { foreign_keys : bool }.

Definition get_connection : connection := {| foreign_keys := false |}.

Definition pragma_foreign_keys_on (conn : connection) : connection :=
  {| foreign_keys := true |}.

(** [with get_connection() as conn: body]: commit when [body] returns,
    roll back to the store as it was when it raises. *)
Definition with_connection {A} (body : connection → store → result (A * store))
    (s : store) : result A * store :=
  match body get_connection s with
  | Ok (a, s') => (Ok a, s')
  | Raise e => (Raise e, s)
  end.

(** ** Statements *)

Definition int64 (z : Z) : Prop := - 2 ^ 63 ≤ z < 2 ^ 63.

(** Binding a Python [int] to a statement parameter. *)
Definition bind_int (z : Z) : result Z :=
  if decide (int64 z) then Ok z
  else Raise (OverflowError "Python int too large to convert to SQLite INTEGER").

(** The rowid an AUTOINCREMENT table gives to a new row: one more than the
    largest rowid ever used. *)
Definition next_rowid (seq : Z) (ids : list Z) : Z :=
  Z.max seq (foldr Z.max 0 ids) + 1.

(** The seven values bound by [insert_printer] and [update_printer]. *)
Record printer_values := {
  v_printer_id : string;
  v_name : string;
  v_manufacturer : string;
  v_model : string;
  v_hours : Z;
  v_nozzle_type : string;
  v_ams : Z
}.

Definition make_printer (rowid : Z) (v : printer_values) : printer_row :=
  {| p_id := rowid;
     printer_id := v_printer_id v;
     name := v_name v;
     manufacturer := Some (v_manufacturer v);
     model := Some (v_model v);
     hours := Some (v_hours v);
     nozzle_type := Some (v_nozzle_type v);
     ams := Some (v_ams v) |}.

Definition has_printer_id (pid : string) (s : store) : bool :=
  bool_decide (pid ∈ printer_id <$> printers s).

Definition has_printer (db_id : Z) (s : store) : bool :=
  bool_decide (db_id ∈ p_id <$> printers s).

Definition unique_failed : exn :=
  IntegrityError "UNIQUE constraint failed: printers.printer_id".

Definition foreign_key_failed : exn :=
  IntegrityError "FOREIGN KEY constraint failed".

(** [INSERT INTO printers (printer_id, ..., ams) VALUES (?, ..., ?)] *)
Definition sql_insert_printer (conn : connection) (v : printer_values)
    (s : store) : result (unit * store) :=
  h ← bind_int (v_hours v);
  if has_printer_id (v_printer_id v) s then Raise unique_failed
  else
    let rowid := next_rowid (printers_seq s) (p_id <$> printers s) in
    Ok (tt, {| printers := printers s ++ [make_printer rowid v];
               printers_seq := rowid;
               service_logs := service_logs s;
               service_logs_seq := service_logs_seq s |}).

(** [UPDATE printers SET printer_id = ?, ..., ams = ? WHERE id = ?] *)
Definition sql_update_printer (conn : connection) (v : printer_values)
    (db_id : Z) (s : store) : result (unit * store) :=
  h ← bind_int (v_hours v);
  i ← bind_int db_id;
  if has_printer i s
     && bool_decide (v_printer_id v ∈
          printer_id <$> filter (λ p, p_id p ≠ i) (printers s))
  then Raise unique_failed
  else
    Ok (tt, {| printers :=
                 (λ p, if decide (p_id p = i) then make_printer i v else p)
                   <$> printers s;
               printers_seq := printers_seq s;
               service_logs := service_logs s;
               service_logs_seq := service_logs_seq s |}).

(** [DELETE FROM printers WHERE id = ?].  The ON DELETE CASCADE action of
    [service_logs.printer_id_fk] runs for the deleted row when the
    connection enforces foreign keys. *)
Definition sql_delete_printer (conn : connection) (db_id : Z) (s : store)
    : result (unit * store) :=
  i ← bind_int db_id;
  Ok (tt, {| printers := filter (λ p, p_id p ≠ i) (printers s);
             printers_seq := printers_seq s;
             service_logs :=
               if foreign_keys conn && has_printer i s
               then filter (λ l, printer_id_fk l ≠ i) (service_logs s)
               else service_logs s;
             service_logs_seq := service_logs_seq s |}).

(** [SELECT 1 FROM printers WHERE printer_id = ? LIMIT 1], then
    [fetchone()] tested for truth. *)
Definition sql_printer_id_exists (conn : connection) (candidate : string)
    (s : store) : bool :=
  has_printer_id candidate s.

(** [INSERT INTO service_logs (printer_id_fk, note) VALUES (?, ?)];
    [now] is the value of [datetime('now')] at the insert. *)
Definition sql_insert_log (conn : connection) (now : string) (db_id : Z)
    (text : string) (s : store) : result (unit * store) :=
  i ← bind_int db_id;
  if foreign_keys conn && negb (has_printer i s) then Raise foreign_key_failed
  else
    let rowid := next_rowid (service_logs_seq s) (l_id <$> service_logs s) in
    Ok (tt, {| printers := printers s;
               printers_seq := printers_seq s;
               service_logs := service_logs s ++
                 [{| l_id := rowid; printer_id_fk := i; note := text;
                     created_at := Some now |}];
               service_logs_seq := rowid |}).

(** [UPDATE service_logs SET note = ? WHERE id = ?] *)
Definition sql_update_log (conn : connection) (text : string) (log_id : Z)
    (s : store) : result (unit * store) :=
  i ← bind_int log_id;
  Ok (tt, {| printers := printers s;
             printers_seq := printers_seq s;
             service_logs :=
               (λ l, if decide (l_id l = i)
                     then {| l_id := l_id l; printer_id_fk := printer_id_fk l;
                             note := text; created_at := created_at l |}
                     else l) <$> service_logs s;
             service_logs_seq := service_logs_seq s |}).

(** [DELETE FROM service_logs WHERE id = ?] *)
Definition sql_delete_log (conn : connection) (log_id : Z) (s : store)
    : result (unit * store) :=
  i ← bind_int log_id;
  Ok (tt, {| printers := printers s;
             printers_seq := printers_seq s;
             service_logs := filter (λ l, l_id l ≠ i) (service_logs s);
             service_logs_seq := service_logs_seq s |}).

(** ** Persistence operations

    The methods of [PrinterServiceApp] under the comment [DB helpers], in
    the order of the source.  Each returns its outcome and the store it
    leaves behind. *)

(** The order of [ORDER BY name]. *)
Definition by_name (p q : printer_row) : Prop :=
  String.le (name p) (name q).

(** SQLite orders NULL before every integer. *)
Definition hours_lt (a b : option Z) : Prop :=
  match a, b with
  | None, Some _ => True
  | Some x, Some y => x < y
  | _, None => False
  end.

(** The order of [ORDER BY hours ASC, name]. *)
Definition by_hours_asc_name (p q : printer_row) : Prop :=
  hours_lt (hours p) (hours q) ∨ (hours p = hours q ∧ String.le (name p) (name q)).

(** The order of [ORDER BY hours DESC, name]. *)
Definition by_hours_desc_name (p q : printer_row) : Prop :=
  hours_lt (hours q) (hours p) ∨ (hours p = hours q ∧ String.le (name p) (name q)).

Global Instance hours_lt_dec : RelDecision hours_lt.
Proof. intros [x|] [y|]; simpl; apply _. Defined.
Global Instance by_name_dec : RelDecision by_name.
Proof. intros p q. unfold by_name. apply _. Defined.
Global Instance by_hours_asc_name_dec : RelDecision by_hours_asc_name.
Proof. intros p q. unfold by_hours_asc_name. apply _. Defined.
Global Instance by_hours_desc_name_dec : RelDecision by_hours_desc_name.
Proof. intros p q. unfold by_hours_desc_name. apply _. Defined.

(** [fetch_printers]; [sort_hours] is the attribute [self.sort_hours]. *)
Definition fetch_printers (sort_hours : option string) (s : store)
    : list printer_row :=
  let conn := pragma_foreign_keys_on get_connection in
  if decide (sort_hours = Some "asc")
  then merge_sort by_hours_asc_name (printers s)
  else if decide (sort_hours = Some "desc")
  then merge_sort by_hours_desc_name (printers s)
  else merge_sort by_name (printers s).

(** [int(hours) if str(hours).strip() != "" else 0], with the [ValueError]
    of [int] replaced by the operation's own. *)
Definition hours_value (hours : Py.value) : result Z :=
  if decide (Py.strip (Py.str hours) ≠ "") then
    match Py.int hours with
    | Some z => Ok z
    | None => Raise (ValueError "Hours must be an integer")
    end
  else Ok 0.

(** The tuple of parameters built by [insert_printer] and [update_printer]. *)
Definition printer_params (printer_id name manufacturer model : string)
    (hours_val : Z) (nozzle_type : option string) (ams : bool) : printer_values :=
  {| v_printer_id := Py.strip printer_id;
     v_name := Py.strip name;
     v_manufacturer := Py.strip manufacturer;
     v_model := Py.strip model;
     v_hours := hours_val;
     v_nozzle_type := Py.strip (Py.str_or nozzle_type "");
     v_ams := if ams then 1 else 0 |}.

Definition insert_printer (printer_id name manufacturer model : string)
    (hours : Py.value) (nozzle_type : option string) (ams : bool)
    (s : store) : result unit * store :=
  match hours_value hours with
  | Raise e => (Raise e, s)
  | Ok hours_val =>
      with_connection (λ conn,
        sql_insert_printer conn
          (printer_params printer_id name manufacturer model hours_val
             nozzle_type ams)) s
  end.

Definition update_printer (db_id : Z)
    (printer_id name manufacturer model : string)
    (hours : Py.value) (nozzle_type : option string) (ams : bool)
    (s : store) : result unit * store :=
  match hours_value hours with
  | Raise e => (Raise e, s)
  | Ok hours_val =>
      with_connection (λ conn,
        sql_update_printer conn
          (printer_params printer_id name manufacturer model hours_val
             nozzle_type ams) db_id) s
  end.

Definition delete_printer (db_id : Z) (s : store) : result unit * store :=
  with_connection (λ conn, sql_delete_printer conn db_id) s.

(** The [while True] loop of [ensure_unique_printer_id], run for at most
    [fuel] probes.  It returns the candidate together with the value of
    [idx] on exit, which is the number of probes made. *)
Fixpoint probe (fuel : nat) (conn : connection) (s : store)
    (base candidate : string) (idx : Z) : option (string * Z) :=
  match fuel with
  | O => None
  | S fuel' =>
      if sql_printer_id_exists conn candidate s then
        let idx := idx + 1 in
        probe fuel' conn s base (base +:+ "-" +:+ pretty idx) idx
      else Some (candidate, idx)
  end.

Definition ensure_unique_printer_id (fuel : nat) (base_printer_id : string)
    (s : store) : option string :=
  let base := Py.str_or (Some (Py.strip base_printer_id)) "printer" in
  fst <$> probe fuel get_connection s base base 1.

Definition insert_log (now : string) (db_id : Z) (text : string) (s : store)
    : result unit * store :=
  with_connection (λ conn, sql_insert_log conn now db_id (Py.strip text)) s.

Definition update_log (log_id : Z) (text : string) (s : store)
    : result unit * store :=
  with_connection (λ conn, sql_update_log conn (Py.strip text) log_id) s.

Definition delete_log (log_id : Z) (s : store) : result unit * store :=
  with_connection (λ conn, sql_delete_log conn log_id) s.

(** No service log is an orphan: every [printer_id_fk] is the id of a
    stored printer. *)
Definition no_orphans (s : store) : Prop :=
  ∀ l, l ∈ service_logs s → printer_id_fk l ∈ p_id <$> printers s.

Global Instance no_orphans_dec s : Decision (no_orphans s).
Proof.
  refine (cast_if (decide (Forall (λ l, printer_id_fk l ∈ p_id <$> printers s)
                             (service_logs s))));
    unfold no_orphans; by rewrite ?Forall_forall in *.
Defined.

(** ** Reads, and the callers of the persistence operations

    The remaining [DB helpers] and the methods under [UI actions] and
    [Logs] that decide what reaches the store.  What these methods read
    from widgets (the selection of a tree, the answer of a dialog) is an
    argument here, the message box they open is returned, and their calls
    that only redraw widgets are left out. *)

(** The seven columns [get_printer_by_db_id] selects. *)
Definition printer_fields : Type :=
  string * string * option string * option string * option Z * option string
  * option Z.

Definition fields_of (p : printer_row) : printer_fields :=
  (printer_id p, name p, manufacturer p, model p, hours p, nozzle_type p, ams p).

(** [SELECT printer_id, ..., ams FROM printers WHERE id = ?], then
    [fetchone()]. *)
Definition sql_select_printer (conn : connection) (db_id : Z) (s : store)
    : result (option printer_fields * store) :=
  i ← bind_int db_id;
  Ok (fields_of <$> head (filter (λ p, p_id p = i) (printers s)), s).

Definition get_printer_by_db_id (db_id : Z) (s : store)
    : result (option printer_fields) :=
  fst (with_connection (λ conn, sql_select_printer conn db_id) s).

(** SQLite orders NULL before every text. *)
Definition text_le (a b : option string) : Prop :=
  match a, b with
  | None, _ => True
  | Some x, Some y => String.le x y
  | Some _, None => False
  end.

(** The order of [ORDER BY created_at DESC]. *)
Definition by_created_at_desc (l1 l2 : log_row) : Prop :=
  text_le (created_at l2) (created_at l1).

Global Instance text_le_dec : RelDecision text_le.
Proof. intros [x|] [y|]; simpl; apply _. Defined.
Global Instance by_created_at_desc_dec : RelDecision by_created_at_desc.
Proof. intros l1 l2. unfold by_created_at_desc. apply _. Defined.

(** The three columns [fetch_logs_for] selects. *)
Definition log_fields_of (l : log_row) : Z * option string * string :=
  (l_id l, created_at l, note l).

(** [SELECT id, created_at, note FROM service_logs WHERE printer_id_fk = ?
    ORDER BY created_at DESC] *)
Definition sql_select_logs (conn : connection) (db_id : Z) (s : store)
    : result (list (Z * option string * string) * store) :=
  i ← bind_int db_id;
  Ok (log_fields_of <$>
        merge_sort by_created_at_desc
          (filter (λ l, printer_id_fk l = i) (service_logs s)), s).

Definition fetch_logs_for (db_id : Z) (s : store)
    : result (list (Z * option string * string)) :=
  fst (with_connection (λ conn,
         sql_select_logs (pragma_foreign_keys_on conn) db_id) s).

(** A message box. *)
Inductive dialog :=
| showwarning (title message : string)
| showerror (title message : string)
| showinfo (title message : string).

(** [str(e)] *)
Definition exn_str (e : exn) : string :=
  match e with
  | ValueError msg | IntegrityError msg | OverflowError msg
  | OperationalError msg => msg
  end.

(** [bool(ams)] on a column value. *)
Definition truthy (x : option Z) : bool :=
  match x with
  | Some z => bool_decide (z ≠ 0)
  | None => false
  end.

(** [duplicate_selected_printer]; [selected] is what
    [get_selected_printer_db_id] returns, [fuel] bounds the probes of
    [ensure_unique_printer_id], and [None] is the loop still running. *)
Definition duplicate_selected_printer (fuel : nat) (selected : option Z)
    (s : store) : option (dialog * store) :=
  match selected with
  | None => Some (showwarning "No selection" "Select a printer to duplicate.", s)
  | Some db_id =>
      if decide (db_id = 0)
      then Some (showwarning "No selection" "Select a printer to duplicate.", s)
      else
        match get_printer_by_db_id db_id s with
        | Raise e => Some (showerror "Error" (exn_str e), s)
        | Ok None => Some (showerror "Error" "Selected printer not found.", s)
        | Ok (Some (src_printer_id, name, manufacturer, model, hours,
                    nozzle_type, ams)) =>
            match ensure_unique_printer_id fuel (src_printer_id +:+ "-copy") s with
            | None => None
            | Some new_printer_id =>
                let new_name := Py.strip (Py.str_or (Some name) "") +:+ " (Copy)" in
                match insert_printer new_printer_id new_name
                        (Py.str_or manufacturer "") (Py.str_or model "")
                        (Py.Int (from_option id 0 hours))
                        (Some (Py.str_or nozzle_type "")) (truthy ams) s with
                | (Ok _, s') =>
                    Some (showinfo "Duplicated"
                            ("Printer duplicated as " +:+ new_printer_id +:+ "."),
                          s')
                | (Raise e, s') => Some (showerror "Error" (exn_str e), s')
                end
            end
        end
  end.

(** [_add_log]: a note that is blank is dropped without a word. *)
Definition _add_log (now : string) (db_id : Z) (text : string) (s : store)
    : option dialog * store :=
  if decide (Py.strip text = "") then (None, s)
  else
    match insert_log now db_id text s with
    | (Ok _, s') => (None, s')
    | (Raise e, s') => (Some (showerror "Error" (exn_str e)), s')
    end.

(** [_update_log] *)
Definition _update_log (log_id : Z) (text : string) (s : store)
    : option dialog * store :=
  if decide (Py.strip text = "") then (None, s)
  else
    match update_log log_id text s with
    | (Ok _, s') => (None, s')
    | (Raise e, s') => (Some (showerror "Error" (exn_str e)), s')
    end.

(** The item ids the two trees are filled with: [iid=str(db_id)] in
    [refresh_printers] and [iid=f"log-{log_id}"] in [refresh_logs]. *)
Definition printer_iid (db_id : Z) : string := pretty db_id.
Definition log_iid (log_id : Z) : string := "log-" +:+ pretty log_id.

(** What reading a selection gives: nothing, an id, or the [ValueError]
    of [int]. *)
Inductive selection :=
| NoSelection
| SelectedId (z : Z)
| InvalidLiteral.

(** [int(selection[0]) if selection else None] *)
Definition get_selected_printer_db_id (sel : list string) : selection :=
  match sel with
  | [] => NoSelection
  | iid :: _ =>
      match Py.int_of_str iid with
      | Some z => SelectedId z
      | None => InvalidLiteral
      end
  end.

(** [iid.startswith(prefix)] *)
Fixpoint startswith (prefix s : string) : bool :=
  match prefix, s with
  | EmptyString, _ => true
  | String a p, String b r => bool_decide (a = b) && startswith p r
  | String _ _, EmptyString => false
  end.

(** [s.split(sep, 1)] for a one-character separator: the part before the
    first separator and, when there is one, the part after it. *)
Fixpoint split_once (sep : ascii) (s : string) : string * option string :=
  match s with
  | EmptyString => (EmptyString, None)
  | String c r =>
      if decide (c = sep) then (EmptyString, Some r)
      else let '(before, after) := split_once sep r in (String c before, after)
  end.

(** [get_selected_log_id]; the index [1] always exists behind the
    [startswith] test. *)
Definition get_selected_log_id (sel : list string) : selection :=
  match sel with
  | [] => NoSelection
  | iid :: _ =>
      if negb (startswith "log-" iid) then NoSelection
      else
        match snd (split_once "-" iid) with
        | Some tail =>
            match Py.int_of_str tail with
            | Some z => SelectedId z
            | None => InvalidLiteral
            end
        | None => NoSelection
        end
  end.

(** ** Sample stores and sequences of operations *)

(** A store holding one printer, and one holding two, used as concrete
    inputs below. *)
Definition sample_printer (rowid : Z) (pid nm : string) (h : Z) : printer_row :=
  {| p_id := rowid; printer_id := pid; name := nm;
     manufacturer := Some "Maker"; model := Some "Model X"; hours := Some h;
     nozzle_type := Some "0.4 mm"; ams := Some 0 |}.

Definition store_machine : store :=
  {| printers := [sample_printer 1 "machine" "Printer 1" 5];
     printers_seq := 1; service_logs := []; service_logs_seq := 0 |}.

Definition store_machine_2 : store :=
  {| printers := [sample_printer 1 "machine" "Printer 1" 5;
                  sample_printer 2 "machine-2" "Printer Copy" 0];
     printers_seq := 2; service_logs := []; service_logs_seq := 0 |}.

Definition store_with_log : store :=
  {| printers := [sample_printer 1 "printer-1" "Printer 1" 5];
     printers_seq := 1;
     service_logs := [{| l_id := 1; printer_id_fk := 1;
                         note := "Initial log entry";
                         created_at := Some "2024-05-01 10:00:00" |}];
     service_logs_seq := 1 |}.

Definition store_hours_5_1_3 : store :=
  {| printers := [sample_printer 1 "printer-1" "Unit C" 5;
                  sample_printer 2 "printer-2" "Unit B" 1;
                  sample_printer 3 "printer-3" "Unit A" 3];
     printers_seq := 3; service_logs := []; service_logs_seq := 0 |}.

(** Row [l'] is row [l] after [UPDATE service_logs SET note = text WHERE
    id = log_id]: only the note may differ. *)
Definition log_updated_from (log_id : Z) (text : string) (l l' : log_row) : Prop :=
  l_id l' = l_id l ∧ printer_id_fk l' = printer_id_fk l ∧
  created_at l' = created_at l ∧
  note l' = if decide (l_id l = log_id) then text else note l.

(** The operations that write the [printers] table. *)
Inductive printer_op :=
| InsertPrinter (pid nm mf md : string) (hrs : Py.value) (nz : option string)
    (a : bool)
| UpdatePrinter (db_id : Z) (pid nm mf md : string) (hrs : Py.value)
    (nz : option string) (a : bool)
| DeletePrinter (db_id : Z).

Definition run_op (op : printer_op) (s : store) : result unit * store :=
  match op with
  | InsertPrinter pid nm mf md hrs nz a => insert_printer pid nm mf md hrs nz a s
  | UpdatePrinter db_id pid nm mf md hrs nz a =>
      update_printer db_id pid nm mf md hrs nz a s
  | DeletePrinter db_id => delete_printer db_id s
  end.

(** The store after a sequence of operations; one that raises leaves the
    store as it was. *)
Definition run_ops (ops : list printer_op) (s : store) : store :=
  foldl (λ s op, snd (run_op op s)) s ops.

(** Every stored printer has hours that are an integer of SQLite's range. *)
Definition hours_in_range (s : store) : Prop :=
  ∀ p, p ∈ printers s → ∃ h, hours p = Some h ∧ int64 h.

(** An insert with blank hours followed by an update to negative hours. *)
Definition sample_ops : list printer_op :=
  [InsertPrinter "printer-1" "Printer 1" "Maker" "Model X" (Py.Str "") None false;
   UpdatePrinter 1 "printer-1" "Printer 1" "Maker" "Model X" (Py.Str "-5") None true].

(** ** Schema creation and migration

    [initialize_database] works on the data file whatever its schema, so
    here a table is its list of column names and its rows as lists of
    values, and the disk is the data directory and the data file. *)

Module Schema.

Inductive sqlval :=
| Null
| Integer (z : Z)
| Text (s : string).

Record table := {
  columns : list string;
  rows : list (list sqlval)
}.

Record database := {
  printers : option table;
  service_logs : option table
}.

Record disk := {
  directory : bool;                 (* the directory of DB_FILE exists *)
  database_file : option database   (* the content of DB_FILE, if it exists *)
}.

Definition printers_columns : list string :=
  ["id"; "printer_id"; "name"; "manufacturer"; "model"; "hours";
   "nozzle_type"; "ams"].

Definition service_logs_columns : list string :=
  ["id"; "printer_id_fk"; "note"; "created_at"].

(** [CREATE TABLE IF NOT EXISTS name (columns)] *)
Definition create_table_if_not_exists (cols : list string) (t : option table)
    : option table :=
  match t with
  | Some t => Some t
  | None => Some {| columns := cols; rows := [] |}
  end.

Definition lower_ascii (c : ascii) : ascii :=
  let n := N_of_ascii c in
  if ((65 <=? n) && (n <=? 90))%N then ascii_of_N (n + 32) else c.

Fixpoint lower (s : string) : string :=
  match s with
  | EmptyString => EmptyString
  | String c r => String (lower_ascii c) (lower r)
  end.

(** [ALTER TABLE t ADD COLUMN col ... DEFAULT d]: existing rows read the
    default in the new column.  SQLite refuses a name that is already a
    column, comparing without regard to ASCII case. *)
Definition add_column (col : string) (d : sqlval) (t : table) : result table :=
  if bool_decide (lower col ∈ lower <$> columns t)
  then Raise (OperationalError ("duplicate column name: " +:+ col))
  else Ok {| columns := columns t ++ [col]; rows := (λ r, r ++ [d]) <$> rows t |}.

(** [PRAGMA table_info(printers)], collected in the Python set [cols]. *)
Definition table_info_names (t : option table) : gset string :=
  list_to_set (from_option columns [] t).

(** The statements of [initialize_database] after the directory is made.
    A schema statement is committed as soon as it has run, so each step
    gives the database it leaves behind, also when a later one raises. *)
Definition migrate (db : database) : result unit * database :=
  let db1 := {| printers := create_table_if_not_exists printers_columns (printers db);
                service_logs := service_logs db |} in
  let db2 := {| printers := printers db1;
                service_logs := create_table_if_not_exists service_logs_columns
                                  (service_logs db1) |} in
  let cols := table_info_names (printers db2) in
  let alter (col : string) (d : sqlval) (r : result unit * database) :=
    match r with
    | (Ok _, db) =>
        match printers db with
        | Some t =>
            match add_column col d t with
            | Ok t' => (Ok tt, {| printers := Some t'; service_logs := service_logs db |})
            | Raise e => (Raise e, db)
            end
        | None => (Raise (OperationalError "no such table: printers"), db)
        end
    | (Raise e, db) => (Raise e, db)
    end in
  let r3 := if decide ("nozzle_type" ∉ cols)
            then alter "nozzle_type" Null (Ok tt, db2) else (Ok tt, db2) in
  if decide ("ams" ∉ cols) then alter "ams" (Integer 0) r3 else r3.

Definition empty_database : database :=
  {| printers := None; service_logs := None |}.

(** [initialize_database]: [os.makedirs(..., exist_ok=True)], then the
    connection, which creates the data file when there is none. *)
Definition initialize_database (d : disk) : result unit * disk :=
  let db := from_option id empty_database (database_file d) in
  let '(r, db') := migrate db in
  (r, {| directory := true; database_file := Some db' |}).

(** The store has the current schema: both tables exist and [printers]
    has the two columns added after the original schema. *)
Definition current_schema (d : disk) : Prop :=
  directory d = true ∧
  ∃ db p l, database_file d = Some db ∧ printers db = Some p ∧
            service_logs db = Some l ∧
            "nozzle_type" ∈ columns p ∧ "ams" ∈ columns p.

(** Creating the tables is all the migration sees of a database that
    lacks one. *)
Definition created (db : database) : database :=
  {| printers := create_table_if_not_exists printers_columns (printers db);
     service_logs := create_table_if_not_exists service_logs_columns
                       (service_logs db) |}.

(** A data file written under the original schema, before [nozzle_type]
    and [ams] were introduced, holding one printer. *)
Definition legacy_disk : disk :=
  {| directory := true;
     database_file := Some
       {| printers := Some
            {| columns := ["id"; "printer_id"; "name"; "manufacturer"; "model";
                           "hours"];
               rows := [[Integer 1; Text "printer-1"; Text "Printer 1";
                         Text "Maker"; Text "Model X"; Integer 5]] |};
          service_logs := Some {| columns := service_logs_columns; rows := [] |} |} |}.

Definition migrated_disk : disk :=
  {| directory := true;
     database_file := Some
       {| printers := Some
            {| columns := ["id"; "printer_id"; "name"; "manufacturer"; "model";
                           "hours"; "nozzle_type"; "ams"];
               rows := [[Integer 1; Text "printer-1"; Text "Printer 1";
                         Text "Maker"; Text "Model X"; Integer 5; Null;
                         Integer 0]] |};
          service_logs := Some {| columns := service_logs_columns; rows := [] |} |} |}.

(** The [printers] table as the migration finds it after the CREATE
    statements. *)
Definition printers_table (db : database) : table :=
  from_option id {| columns := printers_columns; rows := [] |} (printers db).

(** A column that the Python set of names does not contain although SQLite
    has a column of that name: the names differ in case only. *)
Definition case_clash (col : string) (t : table) : Prop :=
  (col ∉ columns t) ∧ lower col ∈ lower <$> columns t.

(** Table [t'] holds everything table [t] holds: the columns of [t] come
    first, and every row starts with the row it was. *)
Definition extends (t t' : table) : Prop :=
  columns t `prefix_of` columns t' ∧ Forall2 prefix (rows t) (rows t').

(** A data file whose [printers] table spells a later column in capitals. *)
Definition capitals_disk : disk :=
  {| directory := true;
     database_file := Some
       {| printers := Some
            {| columns := ["id"; "printer_id"; "name"; "manufacturer"; "model";
                           "hours"; "AMS"];
               rows := [] |};
          service_logs := Some {| columns := service_logs_columns; rows := [] |} |} |}.

End Schema.

(** The sequence of candidates as the specification words it: the bare
    base first, then [base-2], [base-3], ...; [probe_sequence base k] is
    its element of rank [k], counted from 0. *)
Definition probe_sequence (base : string) (k : nat) : string :=
  match k with
  | O => base
  | S _ => base +:+ "-" +:+ pretty (Z.of_nat k + 1)
  end.

(** The base as the specification words it: the trimmed input, or the
    literal default when that is empty. *)
Definition trimmed_or_default (base_printer_id : string) : string :=
  if decide (Py.strip base_printer_id = "") then "printer"
  else Py.strip base_printer_id.

(** Every character of a string passes a test. *)
Fixpoint all_chars (P : ascii → bool) (s : string) : bool :=
  match s with
  | EmptyString => true
  | String c r => P c && all_chars P r
  end.

(** A decimal digit. *)
Definition is_digit (c : ascii) : bool :=
  match Py.digit c with Some _ => true | None => false end.

(** A character of a decimal numeral: a digit or the minus sign. *)
Definition numeral_char (c : ascii) : bool :=
  match Py.digit c with
  | Some _ => true
  | None => bool_decide (c = "-"%char)
  end.

(** ** Stores at rest

    What the operations keep true of the store, and the sequences of
    operations the callers can run. *)

(** Text with nothing left to strip. *)
Definition trimmed (t : string) : Prop := Py.strip t = t.

(** A printer as [insert_printer] and [update_printer] write it: text
    trimmed, no column NULL, hours in SQLite's range, [ams] 0 or 1. *)
Definition normal_printer (p : printer_row) : Prop :=
  trimmed (printer_id p) ∧ trimmed (name p) ∧
  (∃ t, manufacturer p = Some t ∧ trimmed t) ∧
  (∃ t, model p = Some t ∧ trimmed t) ∧
  (∃ h, hours p = Some h ∧ int64 h) ∧
  (∃ t, nozzle_type p = Some t ∧ trimmed t) ∧
  (ams p = Some 0 ∨ ams p = Some 1).

(** A service log as [_add_log] and [_update_log] leave it: a note that
    is trimmed and not empty, and a time stamp. *)
Definition normal_log (l : log_row) : Prop :=
  note l ≠ "" ∧ trimmed (note l) ∧ created_at l ≠ None.

Record at_rest (s : store) : Prop := {
  printer_rowids_unique : NoDup (p_id <$> printers s);
  printer_ids_unique : NoDup (printer_id <$> printers s);
  log_rowids_unique : NoDup (l_id <$> service_logs s);
  printer_rowids_used : ∀ p, p ∈ printers s → 0 < p_id p ≤ printers_seq s;
  log_rowids_used : ∀ l, l ∈ service_logs s → 0 < l_id l ≤ service_logs_seq s;
  printers_normal : ∀ p, p ∈ printers s → normal_printer p;
  logs_normal : ∀ l, l ∈ service_logs s → normal_log l
}.

(** The values [printer_params] builds, once the hours fit. *)
Definition normal_values (v : printer_values) : Prop :=
  trimmed (v_printer_id v) ∧ trimmed (v_name v) ∧ trimmed (v_manufacturer v) ∧
  trimmed (v_model v) ∧ int64 (v_hours v) ∧ trimmed (v_nozzle_type v) ∧
  (v_ams v = 0 ∨ v_ams v = 1).

(** The changes of the store the operations make when they change it. *)
Inductive transition (s : store) : store → Prop :=
| printer_inserted (v : printer_values) :
    normal_values v →
    v_printer_id v ∉ printer_id <$> printers s →
    transition s
      {| printers := printers s ++
           [make_printer (next_rowid (printers_seq s) (p_id <$> printers s)) v];
         printers_seq := next_rowid (printers_seq s) (p_id <$> printers s);
         service_logs := service_logs s;
         service_logs_seq := service_logs_seq s |}
| printer_updated (v : printer_values) (i : Z) :
    normal_values v →
    v_printer_id v ∉ printer_id <$> filter (λ p, p_id p ≠ i) (printers s) →
    transition s
      {| printers := (λ p, if decide (p_id p = i) then make_printer i v else p)
                       <$> printers s;
         printers_seq := printers_seq s;
         service_logs := service_logs s;
         service_logs_seq := service_logs_seq s |}
| printer_deleted (i : Z) :
    transition s
      {| printers := filter (λ p, p_id p ≠ i) (printers s);
         printers_seq := printers_seq s;
         service_logs := service_logs s;
         service_logs_seq := service_logs_seq s |}
| log_inserted (now : string) (i : Z) (text : string) :
    text ≠ "" → trimmed text →
    transition s
      {| printers := printers s;
         printers_seq := printers_seq s;
         service_logs := service_logs s ++
           [{| l_id := next_rowid (service_logs_seq s) (l_id <$> service_logs s);
               printer_id_fk := i; note := text; created_at := Some now |}];
         service_logs_seq :=
           next_rowid (service_logs_seq s) (l_id <$> service_logs s) |}
| log_updated (i : Z) (text : string) :
    text ≠ "" → trimmed text →
    transition s
      {| printers := printers s;
         printers_seq := printers_seq s;
         service_logs :=
           (λ l, if decide (l_id l = i)
                 then {| l_id := l_id l; printer_id_fk := printer_id_fk l;
                         note := text; created_at := created_at l |}
                 else l) <$> service_logs s;
         service_logs_seq := service_logs_seq s |}
| log_deleted (i : Z) :
    transition s
      {| printers := printers s;
         printers_seq := printers_seq s;
         service_logs := filter (λ l, l_id l ≠ i) (service_logs s);
         service_logs_seq := service_logs_seq s |}.

(** What a caller can do to the store: the three printer operations,
    duplication, and the log operations behind their blank-note guards. *)
Inductive action :=
| DoInsertPrinter (pid nm mf md : string) (hrs : Py.value) (nz : option string)
    (a : bool)
| DoUpdatePrinter (db_id : Z) (pid nm mf md : string) (hrs : Py.value)
    (nz : option string) (a : bool)
| DoDeletePrinter (db_id : Z)
| DoDuplicate (selected : option Z)
| DoAddLog (now : string) (db_id : Z) (text : string)
| DoUpdateLog (log_id : Z) (text : string)
| DoDeleteLog (log_id : Z).

(** The store an action leaves; [None] when [fuel] probes do not end the
    loop of [ensure_unique_printer_id]. *)
Definition run_action (fuel : nat) (act : action) (s : store) : option store :=
  match act with
  | DoInsertPrinter pid nm mf md hrs nz a =>
      Some (snd (insert_printer pid nm mf md hrs nz a s))
  | DoUpdatePrinter db_id pid nm mf md hrs nz a =>
      Some (snd (update_printer db_id pid nm mf md hrs nz a s))
  | DoDeletePrinter db_id => Some (snd (delete_printer db_id s))
  | DoDuplicate selected => snd <$> duplicate_selected_printer fuel selected s
  | DoAddLog now db_id text => Some (snd (_add_log now db_id text s))
  | DoUpdateLog log_id text => Some (snd (_update_log log_id text s))
  | DoDeleteLog log_id => Some (snd (delete_log log_id s))
  end.

Fixpoint run_actions (fuel : nat) (acts : list action) (s : store)
    : option store :=
  match acts with
  | [] => Some s
  | act :: acts => s' ← run_action fuel act s; run_actions fuel acts s'
  end.

(** The values of the form, as [insert_printer] takes them. *)
Record printer_form := {
  f_printer_id : string;
  f_name : string;
  f_manufacturer : string;
  f_model : string;
  f_hours : Py.value;
  f_nozzle_type : option string;
  f_ams : bool
}.

Definition insert_form (f : printer_form) (s : store) : result unit * store :=
  insert_printer (f_printer_id f) (f_name f) (f_manufacturer f) (f_model f)
    (f_hours f) (f_nozzle_type f) (f_ams f) s.

(** One [insert_printer] after the other. *)
Definition insert_forms (fs : list printer_form) (s : store) : store :=
  foldl (λ s f, snd (insert_form f s)) s fs.

(** The hours of a form pass the validation and fit SQLite's INTEGER. *)
Definition hours_fit (f : printer_form) : Prop :=
  ∃ h, hours_value (f_hours f) = Ok h ∧ int64 h.

Definition sample_forms : list printer_form :=
  [{| f_printer_id := " printer-b "; f_name := "Unit B"; f_manufacturer := "";
      f_model := ""; f_hours := Py.Str "3"; f_nozzle_type := None;
      f_ams := false |};
   {| f_printer_id := "printer-a"; f_name := "Unit A"; f_manufacturer := "";
      f_model := ""; f_hours := Py.Str ""; f_nozzle_type := None;
      f_ams := true |}].

(** The order of the rows [fetch_logs_for] returns: the later time stamp
    first, a missing one last. *)
Definition newest_first (r1 r2 : Z * option string * string) : Prop :=
  text_le (snd (fst r2)) (snd (fst r1)).

(** Between an earlier store [s] and a later store [s'] no rowid has been
    given out twice: the AUTOINCREMENT counters have not gone back, and
    every row of [s'] with a rowid up to the earlier counter has the rowid
    of a row of [s]. *)
Definition rowids_kept (s s' : store) : Prop :=
  printers_seq s ≤ printers_seq s' ∧
  service_logs_seq s ≤ service_logs_seq s' ∧
  (∀ p, p ∈ printers s' → p_id p ≤ printers_seq s →
        p_id p ∈ p_id <$> printers s) ∧
  (∀ l, l ∈ service_logs s' → l_id l ≤ service_logs_seq s →
        l_id l ∈ l_id <$> service_logs s).

(** A session: a printer is added, gets a note, a blank note is
    dropped, the printer is duplicated, the note is edited, the copy gets a
    note, and a note that does not exist is deleted. *)
Definition sample_actions : list action :=
  [DoInsertPrinter " printer-1 " "Unit A" "Maker" "Model X" (Py.Str "5")
     (Some "0.4 mm") true;
   DoAddLog "2024-05-01 10:00:00" 1 " Initial log entry ";
   DoAddLog "2024-05-02 09:00:00" 1 "   ";
   DoDuplicate (Some 1);
   DoUpdateLog 1 "Updated log entry";
   DoAddLog "2024-05-03 08:00:00" 2 "Nozzle changed";
   DoDeleteLog 7].

(** The store that session leaves. *)
Definition sample_session_store : store :=
  {| printers :=
       [{| p_id := 1; printer_id := "printer-1"; name := "Unit A";
           manufacturer := Some "Maker"; model := Some "Model X";
           hours := Some 5; nozzle_type := Some "0.4 mm"; ams := Some 1 |};
        {| p_id := 2; printer_id := "printer-1-copy"; name := "Unit A (Copy)";
           manufacturer := Some "Maker"; model := Some "Model X";
           hours := Some 5; nozzle_type := Some "0.4 mm"; ams := Some 1 |}];
     printers_seq := 2;
     service_logs :=
       [{| l_id := 1; printer_id_fk := 1; note := "Updated log entry";
           created_at := Some "2024-05-01 10:00:00" |};
        {| l_id := 2; printer_id_fk := 2; note := "Nozzle changed";
           created_at := Some "2024-05-03 08:00:00" |}];
     service_logs_seq := 2 |}.

(** * Properties *)

(** ** Strings *)

Example strip_blank : Py.strip "   " = "".
Proof. reflexivity. Qed.
Example strip_keeps_inner_space : Py.strip "  Unit  A  " = "Unit  A".
Proof. reflexivity. Qed.
Example int_of_str_spaces : Py.int_of_str " 12 " = Some 12.
Proof. reflexivity. Qed.
Example int_of_str_negative : Py.int_of_str "-5" = Some (-5).
Proof. reflexivity. Qed.
Example int_of_str_underscore : Py.int_of_str "1_000" = Some 1000.
Proof. reflexivity. Qed.
Example int_of_str_double_underscore : Py.int_of_str "1__0" = None.
Proof. reflexivity. Qed.
Example int_of_str_letters : Py.int_of_str "abc" = None.
Proof. reflexivity. Qed.
Example int_of_str_sign_only : Py.int_of_str "-" = None.
Proof. reflexivity. Qed.
Example int_of_str_fraction : Py.int_of_str "1.5" = None.
Proof. reflexivity. Qed.

Lemma append_empty_r (s : string) : s +:+ "" = s.
Proof.
  induction s as [|c s IH]; [done|].
  change (String c (s +:+ "") = String c s). by rewrite IH.
Qed.

Lemma str_or_default (s : string) :
  Py.str_or (Some s) "printer" = if decide (s = "") then "printer" else s.
Proof. by destruct s. Qed.

Global Instance probe_sequence_inj (base : string) :
  Inj (=) (=) (probe_sequence base).
Proof.
  intros [|j] [|k] Hjk; simpl in Hjk; try done.
  - rewrite <-(append_empty_r base) in Hjk at 1.
    apply (inj (String.app base)) in Hjk. discriminate.
  - symmetry in Hjk. rewrite <-(append_empty_r base) in Hjk at 1.
    apply (inj (String.app base)) in Hjk. discriminate.
  - apply (inj (String.app base)) in Hjk.
    apply (inj (String.app "-")) in Hjk.
    apply (inj pretty) in Hjk. lia.
Qed.

(** ** The probe loop *)

Section probing.
Variables (conn : connection) (s : store) (base : string).

Local Abbreviation taken c := (c ∈ printer_id <$> printers s).

Lemma has_printer_id_true (c : string) : has_printer_id c s = true ↔ taken c.
Proof. unfold has_printer_id. apply bool_decide_eq_true. Qed.

Lemma has_printer_id_false (c : string) : has_printer_id c s = false ↔ ¬ taken c.
Proof. unfold has_printer_id. apply bool_decide_eq_false. Qed.

(** One turn of the loop, at the candidate of rank [k]. *)
Lemma probe_step (fuel k : nat) :
  probe (S fuel) conn s base (probe_sequence base k) (Z.of_nat k + 1) =
    if has_printer_id (probe_sequence base k) s
    then probe fuel conn s base (probe_sequence base (S k)) (Z.of_nat (S k) + 1)
    else Some (probe_sequence base k, Z.of_nat k + 1).
Proof.
  simpl. unfold sql_printer_id_exists.
  destruct (has_printer_id (probe_sequence base k) s); [|done].
  by replace (Z.of_nat k + 1 + 1) with (Z.pos (Pos.of_succ_nat k) + 1) by lia.
Qed.

(** Pigeonhole: the first [length + 1] candidates are distinct, so one
    of them is not stored. *)
Lemma free_candidate_exists :
  ∃ k, (k ≤ length (printers s))%nat ∧ ¬ taken (probe_sequence base k).
Proof.
  set (n := length (printers s)).
  destruct (decide (Forall (λ k, taken (probe_sequence base k)) (seq 0 (S n))))
    as [Hall|Hsome].
  - exfalso.
    assert (probe_sequence base <$> seq 0 (S n) ⊆+ printer_id <$> printers s) as Hsub.
    { apply NoDup_submseteq.
      - apply (NoDup_fmap_2 (probe_sequence base)), NoDup_seq.
      - intros c (k & -> & Hk)%list_elem_of_fmap.
        by eapply Forall_forall in Hall. }
    apply submseteq_length in Hsub.
    rewrite !length_fmap, length_seq in Hsub. unfold n in Hsub. lia.
  - apply not_Forall_Exists in Hsome; [|apply _].
    apply Exists_exists in Hsome as (k & Hk & Hfree).
    apply elem_of_seq in Hk. exists k. split; [unfold n in Hk; lia | done].
Qed.

(** From rank [k] on, with every earlier candidate stored and a free one
    at most [m] ranks ahead, the loop returns the first free candidate
    provided it may make [m + 1] probes. *)
Lemma probe_from (m : nat) : ∀ (k fuel : nat),
  (∀ j, (j < k)%nat → taken (probe_sequence base j)) →
  ¬ taken (probe_sequence base (k + m)) →
  (m < fuel)%nat →
  ∃ k', (k ≤ k' ≤ k + m)%nat ∧
    probe fuel conn s base (probe_sequence base k) (Z.of_nat k + 1)
      = Some (probe_sequence base k', Z.of_nat k' + 1) ∧
    ¬ taken (probe_sequence base k') ∧
    ∀ j, (j < k')%nat → taken (probe_sequence base j).
Proof.
  induction m as [|m IH]; intros k fuel Hbelow Hfree Hfuel;
    (destruct fuel as [|fuel]; [lia|]); rewrite probe_step;
    destruct (has_printer_id (probe_sequence base k) s) eqn:Hk.
  - apply has_printer_id_true in Hk. by rewrite Nat.add_0_r in Hfree.
  - apply has_printer_id_false in Hk. exists k. split_and!; [lia..|done|done|done].
  - apply has_printer_id_true in Hk.
    destruct (IH (S k) fuel) as (k' & Hk' & Hrun & Hk'free & Hk'below).
    + intros j Hj. destruct (decide (j = k)) as [->|]; [done|]. apply Hbelow. lia.
    + by replace (S k + m)%nat with (k + S m)%nat by lia.
    + lia.
    + exists k'. split_and!; [lia..|done|done|done].
  - apply has_printer_id_false in Hk. exists k. split_and!; [lia..|done|done|done].
Qed.

(** The whole loop, as [ensure_unique_printer_id] starts it. *)
Lemma probe_first_free (fuel : nat) :
  (length (printers s) < fuel)%nat →
  ∃ k, (k ≤ length (printers s))%nat ∧
    probe fuel conn s base base 1 = Some (probe_sequence base k, Z.of_nat k + 1) ∧
    ¬ taken (probe_sequence base k) ∧
    ∀ j, (j < k)%nat → taken (probe_sequence base j).
Proof.
  intros Hfuel. destruct free_candidate_exists as (m & Hm & Hfree).
  destruct (probe_from m 0 fuel) as (k & Hk & Hrun & Hkfree & Hkbelow);
    [lia | done | lia |].
  exists k. split_and!; [lia | done | done | done].
Qed.

End probing.

Lemma ensure_unique_printer_id_unfold (fuel : nat) (base_printer_id : string)
    (s : store) :
  ensure_unique_printer_id fuel base_printer_id s =
    fst <$> probe fuel get_connection s (trimmed_or_default base_printer_id)
              (trimmed_or_default base_printer_id) 1.
Proof.
  unfold ensure_unique_printer_id, trimmed_or_default.
  by rewrite str_or_default.
Qed.

(** C2. [ensure_unique_printer_id] trims its argument, takes ["printer"]
    when nothing is left, and returns the first element of the sequence
    base, base-2, base-3, ... that is not a stored [printer_id]: every
    earlier element of the sequence is stored and the returned one is not.
    In particular it returns ["machine-2"] when ["machine"] is stored and
    ["machine-2"] is not, ["machine-3"] when both are stored and
    ["machine-3"] is not, and ["printer"] for a blank argument on a store
    without printers.  [fuel] bounds the number of probes; any bound above
    the number of stored printers gives the result. *)
Theorem ensure_unique_printer_id_first_free
    (base_printer_id : string) (s : store) (fuel : nat) :
  (length (printers s) < fuel)%nat →
  let base := trimmed_or_default base_printer_id in
  let ids := printer_id <$> printers s in
  let answer := ensure_unique_printer_id fuel base_printer_id s in
  (∃ k, answer = Some (probe_sequence base k) ∧
        (probe_sequence base k ∉ ids) ∧
        ∀ j, (j < k)%nat → probe_sequence base j ∈ ids) ∧
  (base_printer_id = "machine" → "machine" ∈ ids → "machine-2" ∉ ids →
   answer = Some "machine-2") ∧
  (base_printer_id = "machine" → "machine" ∈ ids → "machine-2" ∈ ids →
   "machine-3" ∉ ids → answer = Some "machine-3") ∧
  (Py.strip base_printer_id = "" → printers s = [] → answer = Some "printer").
Proof.
  intros Hfuel base ids answer.
  destruct (probe_first_free get_connection s base fuel Hfuel)
    as (k & Hk & Hrun & Hfree & Hbelow).
  assert (answer = Some (probe_sequence base k)) as Hanswer.
  { unfold answer. rewrite ensure_unique_printer_id_unfold. fold base.
    by rewrite Hrun. }
  split_and!.
  - by exists k.
  - intros -> H1 H2. rewrite Hanswer. f_equal.
    change base with "machine" in *.
    destruct k as [|[|k]]; [done | done |].
    destruct H2. apply (Hbelow 1%nat). lia.
  - intros -> H1 H2 H3. rewrite Hanswer. f_equal.
    change base with "machine" in *.
    destruct k as [|[|[|k]]]; [done | done | done |].
    destruct H3. apply (Hbelow 2%nat). lia.
  - intros Hblank Hempty. rewrite Hanswer. f_equal.
    assert (base = "printer") as ->.
    { unfold base, trimmed_or_default. by rewrite decide_True. }
    rewrite Hempty in Hk. by replace k with 0%nat by (simpl in Hk; lia).
Qed.

Lemma ensure_unique_printer_id_first_free_witness :
  (length (printers store_machine_2) < 3)%nat ∧
  ensure_unique_printer_id 3 "machine" store_machine_2 = Some "machine-3".
Proof.
  split; [simpl; lia|].
  destruct (ensure_unique_printer_id_first_free "machine" store_machine_2 3)
    as (_ & _ & H & _); [simpl; lia|].
  apply H; [reflexivity| | |]; by apply (bool_decide_unpack _).
Defined.

(** C10. [ensure_unique_printer_id] terminates on every store and every
    argument: the loop leaves with a candidate that is not stored after at
    most (number of stored printers + 2) probes, [idx] counting them, so any
    larger bound on the number of probes gives a result. *)
Theorem ensure_unique_printer_id_terminates
    (base_printer_id : string) (s : store) (fuel : nat) :
  (length (printers s) + 2 ≤ fuel)%nat →
  let base := Py.str_or (Some (Py.strip base_printer_id)) "printer" in
  ∃ candidate idx,
    probe fuel get_connection s base base 1 = Some (candidate, idx) ∧
    1 ≤ idx ≤ Z.of_nat (length (printers s)) + 2 ∧
    ensure_unique_printer_id fuel base_printer_id s = Some candidate ∧
    candidate ∉ printer_id <$> printers s.
Proof.
  intros Hfuel base.
  destruct (probe_first_free get_connection s base fuel)
    as (k & Hk & Hrun & Hfree & _); [lia|].
  exists (probe_sequence base k), (Z.of_nat k + 1).
  split_and!; [done | lia | lia | | done].
  unfold ensure_unique_printer_id. fold base. by rewrite Hrun.
Qed.

Lemma ensure_unique_printer_id_terminates_witness :
  (length (printers store_machine) + 2 ≤ 3)%nat ∧
  ∃ candidate idx,
    probe 3 get_connection store_machine "machine" "machine" 1
      = Some (candidate, idx) ∧
    1 ≤ idx ≤ 3 ∧
    ensure_unique_printer_id 3 "machine" store_machine = Some candidate ∧
    candidate ∉ printer_id <$> printers store_machine.
Proof.
  split; [simpl; lia|].
  apply (ensure_unique_printer_id_terminates "machine" store_machine 3).
  simpl; lia.
Defined.

(** ** Inserting and updating printers *)

Lemma bind_int_ok (z : Z) : int64 z → bind_int z = Ok z.
Proof. intros Hz. unfold bind_int. by rewrite decide_True. Qed.

Lemma bind_int_overflow (z : Z) : ¬ int64 z → ∃ e, bind_int z = Raise e.
Proof. intros Hz. unfold bind_int. rewrite decide_False by done. eauto. Qed.

Lemma hours_value_blank (hrs : Py.value) :
  Py.strip (Py.str hrs) = "" → hours_value hrs = Ok 0.
Proof. intros Hblank. unfold hours_value. by rewrite decide_False by auto. Qed.

Lemma hours_value_invalid (hrs : Py.value) :
  Py.strip (Py.str hrs) ≠ "" → Py.int hrs = None →
  hours_value hrs = Raise (ValueError "Hours must be an integer").
Proof. intros Hsome Hint. unfold hours_value. by rewrite decide_True, Hint. Qed.

Section insert_update.
Variables (pid nm mf md : string) (hrs : Py.value) (nz : option string)
  (a : bool) (s : store).

Lemma insert_printer_invalid (e : exn) :
  hours_value hrs = Raise e →
  insert_printer pid nm mf md hrs nz a s = (Raise e, s).
Proof. intros Hh. unfold insert_printer. by rewrite Hh. Qed.

Lemma insert_printer_overflow (h : Z) :
  hours_value hrs = Ok h → ¬ int64 h →
  ∃ e, insert_printer pid nm mf md hrs nz a s = (Raise e, s).
Proof.
  intros Hh Hrange. unfold insert_printer, with_connection, sql_insert_printer.
  rewrite Hh. simpl.
  destruct (bind_int_overflow h Hrange) as [e ->]. by exists e.
Qed.

Lemma insert_printer_taken (h : Z) :
  hours_value hrs = Ok h → int64 h →
  Py.strip pid ∈ printer_id <$> printers s →
  insert_printer pid nm mf md hrs nz a s = (Raise unique_failed, s).
Proof.
  intros Hh Hrange Htaken.
  unfold insert_printer, with_connection, sql_insert_printer.
  rewrite Hh. simpl. rewrite bind_int_ok by done. simpl.
  by rewrite (proj2 (has_printer_id_true s _) Htaken).
Qed.

Lemma insert_printer_free (h : Z) :
  hours_value hrs = Ok h → int64 h →
  Py.strip pid ∉ printer_id <$> printers s →
  insert_printer pid nm mf md hrs nz a s =
    (Ok tt,
     let rowid := next_rowid (printers_seq s) (p_id <$> printers s) in
     {| printers := printers s ++
          [make_printer rowid (printer_params pid nm mf md h nz a)];
        printers_seq := rowid;
        service_logs := service_logs s;
        service_logs_seq := service_logs_seq s |}).
Proof.
  intros Hh Hrange Hfree.
  unfold insert_printer, with_connection, sql_insert_printer.
  rewrite Hh. simpl. rewrite bind_int_ok by done. simpl.
  by rewrite (proj2 (has_printer_id_false s _) Hfree).
Qed.

Lemma update_printer_invalid (db_id : Z) (e : exn) :
  hours_value hrs = Raise e →
  update_printer db_id pid nm mf md hrs nz a s = (Raise e, s).
Proof. intros Hh. unfold update_printer. by rewrite Hh. Qed.

End insert_update.

Lemma has_printer_true (i : Z) (s : store) :
  has_printer i s = true ↔ i ∈ p_id <$> printers s.
Proof. unfold has_printer. apply bool_decide_eq_true. Qed.

Lemma has_printer_false (i : Z) (s : store) :
  has_printer i s = false ↔ i ∉ p_id <$> printers s.
Proof. unfold has_printer. apply bool_decide_eq_false. Qed.

(** An [UPDATE ... WHERE id = ?] whose id matches no row rewrites no row. *)
Lemma fmap_unmatched {A} (key : A → Z) (f : A → A) (i : Z) (l : list A) :
  i ∉ key <$> l → (λ x, if decide (key x = i) then f x else x) <$> l = l.
Proof.
  induction l as [|x l IH]; [done|]. csimpl.
  intros [Hx Hl]%not_elem_of_cons. rewrite decide_False by done.
  by rewrite IH.
Qed.

(** C3, the statement as written fails: on a store that holds
    ["machine"], inserting a second ["machine"] does not raise an exception
    of a class other than the store's general [IntegrityError]. *)
Lemma duplicate_insert_raises_general_integrity_error :
  ¬ ∃ e, fst (insert_printer "machine" "Printer Copy" "Maker" "Model" (Py.Int 0)
                (Some "0.4 mm") false store_machine) = Raise e ∧
         class_of e ≠ IntegrityErrorC.
Proof. intros (e & He & Hclass). vm_compute in He. by simplify_eq. Qed.

(** C3, amended.  On every store that contains a printer with some
    [printer_id], inserting a second printer whose trimmed [printer_id] is
    the same, with hours that parse and fit, raises the store's
    [IntegrityError] for the UNIQUE constraint: the class every constraint
    violation raises, among them a foreign-key violation, and one that is
    distinct from the [ValueError] of a malformed input.  The store is left
    as it was, so the table retains only the first printer. *)
Theorem insert_printer_duplicate_rejected
    (pid nm mf md : string) (hrs : Py.value) (nz : option string) (a : bool)
    (s : store) (h : Z) :
  Py.strip pid ∈ printer_id <$> printers s →
  hours_value hrs = Ok h → int64 h →
  insert_printer pid nm mf md hrs nz a s = (Raise unique_failed, s) ∧
  class_of unique_failed = IntegrityErrorC ∧
  class_of unique_failed = class_of foreign_key_failed ∧
  class_of unique_failed ≠ ValueErrorC.
Proof.
  intros Htaken Hh Hrange. split_and!; [|done..].
  by eapply insert_printer_taken.
Qed.

Lemma insert_printer_duplicate_rejected_witness :
  insert_printer " machine " "Printer Copy" "Maker" "Model" (Py.Str "7")
    (Some "0.4 mm") false store_machine = (Raise unique_failed, store_machine).
Proof.
  refine (proj1 (insert_printer_duplicate_rejected " machine " "Printer Copy"
                   "Maker" "Model" (Py.Str "7") (Some "0.4 mm") false
                   store_machine 7 _ _ _)).
  - by apply (bool_decide_unpack _).
  - reflexivity.
  - unfold int64. lia.
Defined.

(** C4, the statement as written fails: with blank hours the insert does
    not succeed on every store and field tuple; when the [printer_id] is
    already stored it is refused. *)
Lemma blank_hours_insert_can_fail :
  ¬ (fst (insert_printer "machine" "Printer Copy" "Maker" "Model" (Py.Str "")
            (Some "0.4 mm") false store_machine) = Ok tt).
Proof. vm_compute. discriminate. Qed.

(** C4, amended.  On every store and for every field tuple whose trimmed
    [printer_id] is not stored yet, an insert whose hours input is empty
    after stripping succeeds and appends one row with [hours = 0]; on every
    store and for every field tuple, an insert whose hours input is neither
    blank nor an integer literal raises the [ValueError] of the validation
    and leaves the store unchanged. *)
Theorem insert_printer_hours_validation
    (pid nm mf md : string) (hrs : Py.value) (nz : option string) (a : bool)
    (s : store) :
  (Py.strip (Py.str hrs) = "" → Py.strip pid ∉ printer_id <$> printers s →
   ∃ row, insert_printer pid nm mf md hrs nz a s =
            (Ok tt,
             {| printers := printers s ++ [row];
                printers_seq := p_id row;
                service_logs := service_logs s;
                service_logs_seq := service_logs_seq s |}) ∧
          printer_id row = Py.strip pid ∧ hours row = Some 0) ∧
  (Py.strip (Py.str hrs) ≠ "" → Py.int hrs = None →
   insert_printer pid nm mf md hrs nz a s =
     (Raise (ValueError "Hours must be an integer"), s)).
Proof.
  split.
  - intros Hblank Hfree.
    rewrite (insert_printer_free _ _ _ _ _ _ _ _ 0);
      [| by apply hours_value_blank | unfold int64; lia | done].
    by eexists (make_printer _ _).
  - intros Hsome Hint. by apply insert_printer_invalid, hours_value_invalid.
Qed.

Lemma insert_printer_hours_validation_witness :
  (∃ row, insert_printer "machine-2" "Printer Copy" "Maker" "Model" (Py.Str "  ")
            None true store_machine =
            (Ok tt,
             {| printers := printers store_machine ++ [row];
                printers_seq := p_id row;
                service_logs := [];
                service_logs_seq := 0 |}) ∧
          printer_id row = "machine-2" ∧ hours row = Some 0) ∧
  insert_printer "machine-2" "Printer Copy" "Maker" "Model" (Py.Str "abc")
    None true store_machine =
    (Raise (ValueError "Hours must be an integer"), store_machine).
Proof.
  split.
  - apply (insert_printer_hours_validation "machine-2" "Printer Copy" "Maker"
             "Model" (Py.Str "  ") None true store_machine);
      [reflexivity | by apply (bool_decide_unpack _)].
  - apply (insert_printer_hours_validation "machine-2" "Printer Copy" "Maker"
             "Model" (Py.Str "abc") None true store_machine);
      [discriminate | reflexivity].
Defined.

(** ** Updates that match no row *)

Lemma update_printer_unmatched
    (db_id : Z) (pid nm mf md : string) (hrs : Py.value) (nz : option string)
    (a : bool) (s : store) (h : Z) :
  db_id ∉ p_id <$> printers s → int64 db_id →
  hours_value hrs = Ok h → int64 h →
  update_printer db_id pid nm mf md hrs nz a s = (Ok tt, s).
Proof.
  intros Habsent Hid Hh Hrange.
  unfold update_printer, with_connection, sql_update_printer.
  rewrite Hh. simpl. rewrite !bind_int_ok by done. simpl.
  rewrite (proj2 (has_printer_false db_id s) Habsent). simpl.
  rewrite (fmap_unmatched p_id) by done. by destruct s.
Qed.

Lemma update_log_unmatched (log_id : Z) (text : string) (s : store) :
  log_id ∉ l_id <$> service_logs s → int64 log_id →
  update_log log_id text s = (Ok tt, s).
Proof.
  intros Habsent Hid. unfold update_log, with_connection, sql_update_log.
  rewrite bind_int_ok by done. simpl.
  rewrite (fmap_unmatched l_id) by done. by destruct s.
Qed.

(** C5, the statement as written fails: on the empty store, where no
    surrogate id is present, neither [update_printer] nor [update_log]
    raises anything. *)
Lemma update_absent_id_raises_nothing :
  ¬ (∃ e, fst (update_printer 7 "machine" "Printer 1" "Maker" "Model X"
                 (Py.Str "5") (Some "0.4 mm") false empty_store) = Raise e) ∧
  ¬ (∃ e, fst (update_log 7 "Updated log entry" empty_store) = Raise e).
Proof. split; intros [e He]; vm_compute in He; discriminate. Qed.

(** C5, amended.  On every store and for every surrogate id that is not
    in the table (and is a 64-bit integer), [update_printer] with hours
    that parse and fit returns normally and leaves the store exactly as it
    was, and so does [update_log]: an update of an absent id is accepted
    and modifies zero rows; no not-found error exists. *)
Theorem update_absent_id_modifies_nothing
    (db_id log_id : Z) (pid nm mf md text : string) (hrs : Py.value)
    (nz : option string) (a : bool) (s : store) (h : Z) :
  (db_id ∉ p_id <$> printers s → int64 db_id →
   hours_value hrs = Ok h → int64 h →
   update_printer db_id pid nm mf md hrs nz a s = (Ok tt, s)) ∧
  (log_id ∉ l_id <$> service_logs s → int64 log_id →
   update_log log_id text s = (Ok tt, s)).
Proof. split; eauto using update_printer_unmatched, update_log_unmatched. Qed.

Lemma update_absent_id_modifies_nothing_witness :
  update_printer 7 "machine-9" "Printer 9" "Maker" "Model X" (Py.Str "5")
    (Some "0.4 mm") false store_machine = (Ok tt, store_machine) ∧
  update_log 7 "Updated log entry" store_machine = (Ok tt, store_machine).
Proof.
  destruct (update_absent_id_modifies_nothing 7 7 "machine-9" "Printer 9"
              "Maker" "Model X" "Updated log entry" (Py.Str "5")
              (Some "0.4 mm") false store_machine 5) as [Hprinter Hlog].
  split.
  - apply Hprinter;
      [by apply (bool_decide_unpack _) | unfold int64; lia | reflexivity
      | unfold int64; lia].
  - apply Hlog; [by apply (bool_decide_unpack _) | unfold int64; lia].
Defined.

(** ** Updating a log *)

(** C6.  [update_log] on a log id (a 64-bit integer, as every rowid is)
    returns normally and replaces the note only: row by row the service
    logs afterwards have the [id], the [printer_id_fk] and the [created_at]
    they had before; the note of a row with the given id is the trimmed
    text and every other note is unchanged.  The printers are untouched. *)
Theorem update_log_replaces_note_only (log_id : Z) (text : string) (s : store) :
  int64 log_id →
  let s' := snd (update_log log_id text s) in
  fst (update_log log_id text s) = Ok tt ∧
  printers s' = printers s ∧
  Forall2 (log_updated_from log_id (Py.strip text))
    (service_logs s) (service_logs s').
Proof.
  intros Hid. unfold update_log, with_connection, sql_update_log.
  rewrite bind_int_ok by done. simpl. split_and!; [done..|].
  induction (service_logs s) as [|l ls IH]; csimpl; constructor; [|done].
  unfold log_updated_from. by destruct (decide (l_id l = log_id)).
Qed.

Lemma update_log_replaces_note_only_witness :
  int64 1 ∧
  update_log 1 " Updated log entry " store_with_log =
    (Ok tt,
     {| printers := printers store_with_log;
        printers_seq := 1;
        service_logs := [{| l_id := 1; printer_id_fk := 1;
                            note := "Updated log entry";
                            created_at := Some "2024-05-01 10:00:00" |}];
        service_logs_seq := 1 |}) ∧
  Forall2 (log_updated_from 1 "Updated log entry")
    (service_logs store_with_log)
    (service_logs (snd (update_log 1 " Updated log entry " store_with_log))).
Proof.
  assert (int64 1) as Hid by (unfold int64; lia).
  split_and!; [done | reflexivity |].
  apply (update_log_replaces_note_only 1 " Updated log entry " store_with_log Hid).
Defined.

(** ** Referential integrity of service logs *)

(** [delete_printer] never removes a service log, and [insert_log] never
    refuses a printer id: their connections do not enforce foreign keys. *)
Lemma delete_printer_keeps_logs (db_id : Z) (s : store) :
  service_logs (snd (delete_printer db_id s)) = service_logs s.
Proof.
  unfold delete_printer, with_connection, sql_delete_printer.
  by destruct (bind_int db_id).
Qed.

Lemma insert_log_accepts_any_printer (now : string) (db_id : Z) (text : string)
    (s : store) :
  int64 db_id → fst (insert_log now db_id text s) = Ok tt.
Proof.
  intros Hid. unfold insert_log, with_connection, sql_insert_log.
  by rewrite bind_int_ok.
Qed.

(** On a connection that does enforce them, the same two statements keep
    the store free of orphans: the schema is right, the pragma is missing. *)
Lemma sql_delete_printer_enforced (conn : connection) (db_id : Z) (s s' : store) :
  foreign_keys conn = true → no_orphans s →
  sql_delete_printer conn db_id s = Ok (tt, s') → no_orphans s'.
Proof.
  intros Hfk Hs. unfold sql_delete_printer. rewrite Hfk.
  destruct (bind_int db_id) as [i|e] eqn:Hbind; [|done]. simpl.
  intros [= <-]. intros l. simpl.
  destruct (has_printer i s) eqn:Hi; simpl.
  - intros [Hne Hl]%list_elem_of_filter.
    destruct (proj1 (list_elem_of_fmap _ _ _) (Hs l Hl)) as (p & Hp & Hin).
    apply list_elem_of_fmap. exists p. split; [done|].
    apply list_elem_of_filter. split; [congruence | done].
  - intros Hl. apply has_printer_false in Hi.
    destruct (proj1 (list_elem_of_fmap _ _ _) (Hs l Hl)) as (p & Hp & Hin).
    apply list_elem_of_fmap. exists p. split; [done|].
    apply list_elem_of_filter. split; [|done].
    intros <-. apply Hi. by apply list_elem_of_fmap_2.
Qed.

Lemma sql_insert_log_enforced (conn : connection) (now : string) (db_id : Z)
    (text : string) (s : store) :
  foreign_keys conn = true → no_orphans s →
  match sql_insert_log conn now db_id text s with
  | Ok (_, s') => no_orphans s'
  | Raise _ => True
  end.
Proof.
  intros Hfk Hs. unfold sql_insert_log. rewrite Hfk.
  destruct (bind_int db_id) as [i|e]; [|done]. simpl.
  destruct (has_printer i s) eqn:Hi; [|done]. simpl.
  apply has_printer_true in Hi.
  intros l [Hl | ->%list_elem_of_singleton]%elem_of_app; [by apply Hs | done].
Qed.

(** C1, at the failing input.  The specification asks that deleting a
    printer removes its service logs with it and that a log naming no
    stored printer is refused.  On the store with printer 1 and one log of
    printer 1, [delete_printer 1] removes the printer and keeps the log,
    which is then an orphan; on the empty store [insert_log] for printer 99
    is accepted and stores an orphan. *)
Theorem delete_printer_and_insert_log_leave_orphans :
  no_orphans store_with_log ∧
  delete_printer 1 store_with_log =
    (Ok tt,
     {| printers := []; printers_seq := 1;
        service_logs := service_logs store_with_log;
        service_logs_seq := 1 |}) ∧
  ¬ no_orphans (snd (delete_printer 1 store_with_log)) ∧
  no_orphans empty_store ∧
  insert_log "2024-05-01 10:00:00" 99 "Orphan" empty_store =
    (Ok tt,
     {| printers := []; printers_seq := 0;
        service_logs := [{| l_id := 1; printer_id_fk := 99; note := "Orphan";
                            created_at := Some "2024-05-01 10:00:00" |}];
        service_logs_seq := 1 |}) ∧
  ¬ no_orphans (snd (insert_log "2024-05-01 10:00:00" 99 "Orphan" empty_store)).
Proof.
  split_and!; try reflexivity;
    first [by apply (bool_decide_unpack _) | by apply (bool_decide_eq_false_1 _)].
Qed.

(** ** The hours at rest *)

Lemma hours_in_range_step (op : printer_op) (s : store) :
  hours_in_range s → hours_in_range (snd (run_op op s)).
Proof.
  intros Hs.
  destruct op as [pid nm mf md hrs nz a|db_id pid nm mf md hrs nz a|db_id]; simpl.
  - unfold insert_printer, with_connection, sql_insert_printer.
    destruct (hours_value hrs) as [h|e]; [|done]. simpl.
    unfold bind_int. destruct (decide (int64 h)) as [Hh|]; [|done]. simpl.
    destruct (has_printer_id _ s); [done|]. simpl.
    intros p [Hp | ->%list_elem_of_singleton]%elem_of_app; [by apply Hs|].
    by exists h.
  - unfold update_printer, with_connection, sql_update_printer.
    destruct (hours_value hrs) as [h|e]; [|done]. simpl.
    unfold bind_int. destruct (decide (int64 h)) as [Hh|]; [|done]. simpl.
    destruct (decide (int64 db_id)); [|done]. simpl.
    destruct (_ && _); [done|]. simpl.
    intros p (q & -> & Hq)%list_elem_of_fmap.
    destruct (decide (p_id q = db_id)); [by exists h | by apply Hs].
  - unfold delete_printer, with_connection, sql_delete_printer.
    destruct (bind_int db_id) as [i|e]; [|done]. simpl.
    intros p [_ Hp]%list_elem_of_filter. by apply Hs.
Qed.

Lemma hours_in_range_run (ops : list printer_op) (s : store) :
  hours_in_range s → hours_in_range (run_ops ops s).
Proof.
  revert s. induction ops as [|op ops IH]; intros s Hs; [done|].
  apply IH. by apply hours_in_range_step.
Qed.

(** C8, the statement as written fails: a successful insert with the
    hours text ["-5"] stores a printer whose hours are negative. *)
Lemma negative_hours_are_stored :
  fst (insert_printer "printer-1" "Printer 1" "Maker" "Model X" (Py.Str "-5")
         None false empty_store) = Ok tt ∧
  ¬ ∀ p, p ∈ printers (snd (insert_printer "printer-1" "Printer 1" "Maker"
                              "Model X" (Py.Str "-5") None false empty_store)) →
         ∃ h, hours p = Some h ∧ 0 ≤ h.
Proof.
  split; [reflexivity|]. intros Hall.
  destruct (Hall (make_printer 1 (printer_params "printer-1" "Printer 1" "Maker"
                                    "Model X" (-5) None false)))
    as (h & Hh & Hpos).
  - vm_compute. apply list_elem_of_here.
  - simpl in Hh. simplify_eq. lia.
Qed.

(** C8, amended.  After any sequence of insert, update and delete printer
    operations on the store of a fresh database, the hours of every stored
    printer are an integer (never NULL) in SQLite's signed 64-bit range;
    negative values are accepted and stored as given.  Blank hours input
    stands for 0. *)
Theorem hours_at_rest (ops : list printer_op) (hrs : Py.value) :
  (∀ p, p ∈ printers (run_ops ops empty_store) →
        ∃ h, hours p = Some h ∧ int64 h) ∧
  (Py.strip (Py.str hrs) = "" → hours_value hrs = Ok 0).
Proof.
  split; [|apply hours_value_blank].
  apply hours_in_range_run. intros p Hp. by apply elem_of_nil in Hp.
Qed.

Lemma hours_at_rest_witness :
  (∃ h, hours (make_printer 1 (printer_params "printer-1" "Printer 1" "Maker"
                                 "Model X" (-5) None true)) = Some h ∧ int64 h) ∧
  hours_value (Py.Str "  ") = Ok 0.
Proof.
  destruct (hours_at_rest sample_ops (Py.Str "  ")) as [Hrange Hblank].
  split; [|by apply Hblank].
  apply Hrange. vm_compute. apply list_elem_of_here.
Defined.

(** ** Sorted retrieval *)

Lemma hours_lt_trichotomy (a b : option Z) : hours_lt a b ∨ a = b ∨ hours_lt b a.
Proof.
  destruct a as [x|], b as [y|]; simpl; auto.
  destruct (Z.lt_trichotomy x y) as [?|[->|?]]; auto.
Qed.

Lemma hours_lt_irrefl (a : option Z) : ¬ hours_lt a a.
Proof. destruct a; simpl; lia. Qed.

Lemma hours_lt_trans (a b c : option Z) : hours_lt a b → hours_lt b c → hours_lt a c.
Proof. destruct a, b, c; simpl; try done; lia. Qed.

Global Instance by_name_total : Total by_name.
Proof. intros p q. unfold by_name. apply (total String.le). Qed.

Global Instance by_name_trans : Transitive by_name.
Proof. intros p q r. unfold by_name. apply (transitivity (R:=String.le)). Qed.

Global Instance by_hours_asc_name_total : Total by_hours_asc_name.
Proof.
  intros p q. unfold by_hours_asc_name.
  destruct (hours_lt_trichotomy (hours p) (hours q)) as [?|[Heq|?]]; auto.
  destruct (total String.le (name p) (name q)); auto.
Qed.

Global Instance by_hours_asc_name_trans : Transitive by_hours_asc_name.
Proof.
  intros p q r [Hpq|[Hpq Hn1]] [Hqr|[Hqr Hn2]]; unfold by_hours_asc_name.
  - left. by eapply hours_lt_trans.
  - left. by rewrite <-Hqr.
  - left. by rewrite Hpq.
  - right. split; [congruence|]. by etrans.
Qed.

Global Instance by_hours_desc_name_total : Total by_hours_desc_name.
Proof.
  intros p q. unfold by_hours_desc_name.
  destruct (hours_lt_trichotomy (hours p) (hours q)) as [?|[Heq|?]]; auto.
  destruct (total String.le (name p) (name q)); auto.
Qed.

Global Instance by_hours_desc_name_trans : Transitive by_hours_desc_name.
Proof.
  intros p q r [Hpq|[Hpq Hn1]] [Hqr|[Hqr Hn2]]; unfold by_hours_desc_name.
  - left. by eapply hours_lt_trans.
  - left. by rewrite <-Hqr.
  - left. by rewrite Hpq.
  - right. split; [congruence|]. by etrans.
Qed.

(** C7.  [fetch_printers] returns all stored printers, each as often as
    it is stored.  With no sort selector (or one that is neither ["asc"]
    nor ["desc"]) they come by name ascending; with ["asc"] by hours
    ascending, equal hours by name; with ["desc"] by hours descending,
    equal hours by name: in the result every printer stands before
    every later one in that order.  Three printers stored with hours 5, 1, 3
    come back with hours 1, 3, 5 under ["asc"] and 5, 3, 1 under ["desc"]. *)
Theorem fetch_printers_sorted (sort_hours : option string) (s : store) :
  fetch_printers sort_hours s ≡ₚ printers s ∧
  (sort_hours ≠ Some "asc" → sort_hours ≠ Some "desc" →
   StronglySorted by_name (fetch_printers sort_hours s)) ∧
  (sort_hours = Some "asc" →
   StronglySorted by_hours_asc_name (fetch_printers sort_hours s)) ∧
  (sort_hours = Some "desc" →
   StronglySorted by_hours_desc_name (fetch_printers sort_hours s)) ∧
  (∀ p1 p2 p3, printers s = [p1; p2; p3] →
     hours p1 = Some 5 → hours p2 = Some 1 → hours p3 = Some 3 →
     (sort_hours = Some "asc" →
      hours <$> fetch_printers sort_hours s = [Some 1; Some 3; Some 5]) ∧
     (sort_hours = Some "desc" →
      hours <$> fetch_printers sort_hours s = [Some 5; Some 3; Some 1])).
Proof.
  unfold fetch_printers. split_and!.
  - repeat case_decide; apply merge_sort_Permutation.
  - intros Hasc Hdesc. rewrite !decide_False by done.
    apply StronglySorted_merge_sort; apply _.
  - intros ->. rewrite decide_True by done.
    apply StronglySorted_merge_sort; apply _.
  - intros ->. rewrite decide_False by done. rewrite decide_True by done.
    apply StronglySorted_merge_sort; apply _.
  - intros [] [] [] -> H1 H2 H3. simpl in H1, H2, H3. subst.
    split; intros ->; reflexivity.
Qed.

Lemma fetch_printers_sorted_witness :
  name <$> fetch_printers None store_hours_5_1_3 = ["Unit A"; "Unit B"; "Unit C"] ∧
  StronglySorted by_name (fetch_printers None store_hours_5_1_3) ∧
  hours <$> fetch_printers (Some "asc") store_hours_5_1_3
    = [Some 1; Some 3; Some 5] ∧
  hours <$> fetch_printers (Some "desc") store_hours_5_1_3
    = [Some 5; Some 3; Some 1].
Proof.
  split; [reflexivity|].
  destruct (fetch_printers_sorted None store_hours_5_1_3)
    as (_ & Hname & _ & _ & _).
  destruct (fetch_printers_sorted (Some "asc") store_hours_5_1_3)
    as (_ & _ & _ & _ & Hasc).
  destruct (fetch_printers_sorted (Some "desc") store_hours_5_1_3)
    as (_ & _ & _ & _ & Hdesc).
  split_and!.
  - apply Hname; discriminate.
  - by apply (Hasc _ _ _ eq_refl).
  - by apply (Hdesc _ _ _ eq_refl).
Defined.

(** ** Schema migration *)

Module SchemaFacts.
Import Schema.

Lemma table_info_names_spec (c : string) (t : table) :
  c ∈ table_info_names (Some t) ↔ c ∈ columns t.
Proof. unfold table_info_names. simpl. apply elem_of_list_to_set. Qed.

(** On a database whose [printers] table has both later columns, no
    statement of the migration changes anything. *)
Lemma migrate_current (db : database) (p l : table) :
  printers db = Some p → service_logs db = Some l →
  "nozzle_type" ∈ columns p → "ams" ∈ columns p →
  migrate db = (Ok tt, db).
Proof.
  destruct db as [dp dl]. simpl. intros -> -> Hnozzle Hams.
  unfold migrate. simpl.
  rewrite !decide_False; [done | |];
    intros Hnot; apply Hnot; by apply table_info_names_spec.
Qed.

Lemma add_column_columns (col : string) (d : sqlval) (t t' : table) :
  add_column col d t = Ok t' → columns t' = columns t ++ [col].
Proof. unfold add_column. case_bool_decide; [done|]. by intros [= <-]. Qed.

(** The migration of a database that has both tables, statement by
    statement. *)
Lemma migrate_both (p l : table) :
  let db := {| printers := Some p; service_logs := Some l |} in
  migrate db =
    if decide ("nozzle_type" ∈ columns p) then
      if decide ("ams" ∈ columns p) then (Ok tt, db)
      else match add_column "ams" (Integer 0) p with
           | Ok p' => (Ok tt, {| printers := Some p'; service_logs := Some l |})
           | Raise e => (Raise e, db)
           end
    else
      match add_column "nozzle_type" Null p with
      | Ok p1 =>
          if decide ("ams" ∈ columns p)
          then (Ok tt, {| printers := Some p1; service_logs := Some l |})
          else match add_column "ams" (Integer 0) p1 with
               | Ok p2 => (Ok tt, {| printers := Some p2; service_logs := Some l |})
               | Raise e => (Raise e, {| printers := Some p1; service_logs := Some l |})
               end
      | Raise e => (Raise e, db)
      end.
Proof.
  intros db. unfold migrate, table_info_names. simpl.
  pose proof (elem_of_list_to_set (C:=gset string) "nozzle_type" (columns p)).
  pose proof (elem_of_list_to_set (C:=gset string) "ams" (columns p)).
  repeat case_decide; try tauto; try done;
    by destruct (add_column "nozzle_type" Null p).
Qed.

Lemma migrate_created (db : database) : migrate (created db) = migrate db.
Proof. by destruct db as [[p|] [l|]]. Qed.

Lemma migrate_both_idempotent (p l : table) :
  migrate (snd (migrate {| printers := Some p; service_logs := Some l |})) =
    migrate {| printers := Some p; service_logs := Some l |}.
Proof.
  pose proof (migrate_both p l) as Hdb. simpl in Hdb.
  destruct (decide ("nozzle_type" ∈ columns p)) as [Hn|Hn],
           (decide ("ams" ∈ columns p)) as [Ha|Ha].
  - by rewrite !Hdb.
  - destruct (add_column "ams" (Integer 0) p) as [p'|e] eqn:Hadd;
      rewrite Hdb; simpl; [|by rewrite Hdb].
    apply add_column_columns in Hadd.
    apply (migrate_current _ p' l); [done | done | |]; rewrite Hadd; set_solver.
  - destruct (add_column "nozzle_type" Null p) as [p1|e] eqn:Hadd;
      rewrite Hdb; simpl; [|by rewrite Hdb].
    apply add_column_columns in Hadd.
    apply (migrate_current _ p1 l); [done | done | |]; rewrite Hadd; set_solver.
  - destruct (add_column "nozzle_type" Null p) as [p1|e] eqn:Hadd1;
      [|rewrite Hdb; simpl; by rewrite Hdb].
    pose proof (add_column_columns _ _ _ _ Hadd1) as Hcols1.
    destruct (add_column "ams" (Integer 0) p1) as [p2|e] eqn:Hadd2;
      rewrite Hdb; simpl.
    + apply add_column_columns in Hadd2.
      apply (migrate_current _ p2 l); [done | done | |];
        rewrite Hadd2, Hcols1; set_solver.
    + assert ("nozzle_type" ∈ columns p1) by (rewrite Hcols1; set_solver).
      assert ("ams" ∉ columns p1).
      { rewrite Hcols1.
        intros [?|[=]%list_elem_of_singleton]%elem_of_app. done. }
      rewrite migrate_both, decide_True, decide_False by done.
      by rewrite Hadd2.
Qed.

Lemma migrate_idempotent (db : database) :
  migrate (snd (migrate db)) = migrate db.
Proof.
  rewrite <-(migrate_created db).
  destruct db as [[p|] [l|]]; apply migrate_both_idempotent.
Qed.

Example initialize_database_migrates_legacy :
  initialize_database legacy_disk = (Ok tt, migrated_disk).
Proof. reflexivity. Qed.

Example initialize_database_creates_file :
  initialize_database {| directory := false; database_file := None |} =
    (Ok tt,
     {| directory := true;
        database_file := Some
          {| printers := Some {| columns := printers_columns; rows := [] |};
             service_logs := Some {| columns := service_logs_columns; rows := [] |} |} |}).
Proof. reflexivity. Qed.

(** C9.  [initialize_database] is idempotent.  On a store that already
    has the current schema (the data directory and both tables exist, and
    [printers] has the columns [nozzle_type] and [ams]) it returns normally
    and is a no-op: no column is added and no row is touched.  On every
    store, running it a second time gives the outcome and the store of
    running it once. *)
Theorem initialize_database_idempotent (d : disk) :
  (current_schema d → initialize_database d = (Ok tt, d)) ∧
  initialize_database (snd (initialize_database d)) = initialize_database d.
Proof.
  split.
  - intros (Hdir & db & p & l & Hfile & Hp & Hl & Hnozzle & Hams).
    destruct d as [dir file]. simpl in *. subst.
    unfold initialize_database. simpl.
    by rewrite (migrate_current db p l).
  - unfold initialize_database.
    set (db := from_option id empty_database (database_file d)).
    pose proof (migrate_idempotent db) as Hidem.
    destruct (migrate db) as [r db'] eqn:Hrun. simpl in *.
    by rewrite Hidem.
Qed.

Lemma initialize_database_idempotent_witness :
  current_schema migrated_disk ∧
  initialize_database migrated_disk = (Ok tt, migrated_disk) ∧
  initialize_database (snd (initialize_database legacy_disk)) =
    initialize_database legacy_disk.
Proof.
  assert (current_schema migrated_disk) as Hcurrent.
  { split; [reflexivity|]. do 3 eexists.
    split_and!; try reflexivity; by apply (bool_decide_unpack _). }
  split_and!; [done | |].
  - by apply (initialize_database_idempotent migrated_disk).
  - apply (initialize_database_idempotent legacy_disk).
Defined.

End SchemaFacts.

(** * Further properties *)

(** ** Stripping *)

Section stripping.
Variable sp : ascii → bool.

Lemma lstrip_by_length (s : string) :
  (String.length (Py.lstrip_by sp s) ≤ String.length s)%nat.
Proof. induction s as [|c r IH]; simpl; [done|]. destruct (sp c); simpl; lia. Qed.

Lemma lstrip_by_head (s : string) (c : ascii) (r : string) :
  Py.lstrip_by sp s = String c r → sp c = false.
Proof.
  induction s as [|a s IH]; simpl; [done|].
  destruct (sp a) eqn:Ha; [done|]. by intros [= <- _].
Qed.

Lemma lstrip_by_fixed (s : string) :
  Py.lstrip_by sp s = s ↔ s = "" ∨ ∃ c r, s = String c r ∧ sp c = false.
Proof.
  split.
  - destruct s as [|c r]; [by left|]. intros Hs. right. exists c, r.
    split; [done|]. by eapply lstrip_by_head.
  - intros [->|(c & r & -> & Hc)]; simpl; [done|]. by rewrite Hc.
Qed.

Lemma lstrip_by_idem (s : string) :
  Py.lstrip_by sp (Py.lstrip_by sp s) = Py.lstrip_by sp s.
Proof.
  apply lstrip_by_fixed.
  destruct (Py.lstrip_by sp s) as [|c r] eqn:Hs; [by left|].
  right. exists c, r. split; [done|]. by eapply lstrip_by_head.
Qed.

Lemma rstrip_by_cons (c : ascii) (r : string) :
  sp c = false → ∃ r', Py.rstrip_by sp (String c r) = String c r'.
Proof. intros Hc. simpl. rewrite Hc. destruct (Py.rstrip_by sp r); eauto. Qed.

Lemma rstrip_by_idem (s : string) :
  Py.rstrip_by sp (Py.rstrip_by sp s) = Py.rstrip_by sp s.
Proof.
  induction s as [|c r IH]; simpl; [done|].
  destruct (Py.rstrip_by sp r) as [|a r'] eqn:Hr.
  - destruct (sp c) eqn:Hc; simpl; [done|]. by rewrite Hc.
  - change (Py.rstrip_by sp (String c (String a r')) = String c (String a r')).
    simpl. simpl in IH. by rewrite IH.
Qed.

Lemma lstrip_by_rstrip_by (s : string) :
  Py.lstrip_by sp s = s →
  Py.lstrip_by sp (Py.rstrip_by sp s) = Py.rstrip_by sp s.
Proof.
  intros [->|(c & r & -> & Hc)]%lstrip_by_fixed; [done|].
  destruct (rstrip_by_cons c r Hc) as [r' ->]. simpl. by rewrite Hc.
Qed.

(** Appending a string that ends in no white space, or prepending one that
    starts with none, leaves nothing to strip on that side. *)
Lemma rstrip_by_app (a b : string) :
  b ≠ "" → Py.rstrip_by sp b = b → Py.rstrip_by sp (a +:+ b) = a +:+ b.
Proof.
  intros Hb Hfix. induction a as [|c a IH]; [done|].
  change (Py.rstrip_by sp (String c (a +:+ b)) = String c (a +:+ b)).
  simpl. rewrite IH. destruct (a +:+ b) eqn:Hab; [|done].
  destruct a; [by destruct Hb | discriminate].
Qed.

Lemma lstrip_by_app (a b : string) :
  a ≠ "" → Py.lstrip_by sp a = a → Py.lstrip_by sp (a +:+ b) = a +:+ b.
Proof.
  intros Ha [->|(c & r & -> & Hc)]%lstrip_by_fixed; [done|].
  change (Py.lstrip_by sp (String c (r +:+ b)) = String c (r +:+ b)).
  simpl. by rewrite Hc.
Qed.

Lemma all_chars_lstrip_by (s : string) :
  all_chars (λ c, negb (sp c)) s = true → Py.lstrip_by sp s = s.
Proof.
  destruct s as [|c r]; simpl; [done|].
  intros [Hc _]%andb_true_iff. by destruct (sp c).
Qed.

Lemma all_chars_rstrip_by (s : string) :
  all_chars (λ c, negb (sp c)) s = true → Py.rstrip_by sp s = s.
Proof.
  induction s as [|c r IH]; simpl; [done|].
  intros [Hc Hr]%andb_true_iff. rewrite IH by done.
  destruct r; [|done]. by destruct (sp c).
Qed.

End stripping.

Lemma all_chars_impl (P Q : ascii → bool) (s : string) :
  (∀ c, P c = true → Q c = true) → all_chars P s = true → all_chars Q s = true.
Proof.
  intros HPQ. induction s as [|c r IH]; simpl; [done|].
  intros [Hc Hr]%andb_true_iff. by rewrite (HPQ c Hc), IH.
Qed.

Lemma all_chars_app (P : ascii → bool) (a b : string) :
  all_chars P (a +:+ b) = (all_chars P a && all_chars P b).
Proof.
  induction a as [|c a IH]; [done|].
  change (all_chars P (String c (a +:+ b)) = (all_chars P (String c a) && all_chars P b)).
  simpl. by rewrite IH, andb_assoc.
Qed.

Lemma strip_idem (s : string) : Py.strip (Py.strip s) = Py.strip s.
Proof.
  unfold Py.strip.
  rewrite (lstrip_by_rstrip_by _ (Py.lstrip_by Py.isspace s))
    by apply lstrip_by_idem.
  apply rstrip_by_idem.
Qed.

Lemma strip_fixed_app (a b : string) :
  a ≠ "" → Py.strip a = a → b ≠ "" → Py.rstrip_by Py.isspace b = b →
  Py.strip (a +:+ b) = a +:+ b.
Proof.
  intros Ha Hfix Hb Hbfix. unfold Py.strip.
  assert (Py.lstrip_by Py.isspace a = a) as Hl.
  { destruct a as [|c r]; [done|]. apply lstrip_by_fixed. right.
    exists c, r. split; [done|].
    unfold Py.strip in Hfix.
    destruct (Py.isspace c) eqn:Hc; [|done]. exfalso.
    simpl in Hfix. rewrite Hc in Hfix.
    pose proof (lstrip_by_length Py.isspace r) as Hlen.
    assert (∀ t, String.length (Py.rstrip_by Py.isspace t) ≤ String.length t)%nat
      as Hrlen.
    { clear. induction t as [|a t IH]; simpl; [done|].
      destruct (Py.rstrip_by Py.isspace t); simpl in *;
        [destruct (Py.isspace a); simpl; lia | lia]. }
    specialize (Hrlen (Py.lstrip_by Py.isspace r)).
    rewrite Hfix in Hrlen. simpl in Hrlen. lia. }
  rewrite lstrip_by_app by done. by apply rstrip_by_app.
Qed.

(** ** Decimal numerals *)

Lemma digit_pretty_N_char (x : N) :
  (x < 10)%N → Py.digit (pretty_N_char x) = Some (Z.of_N x).
Proof.
  intros Hx.
  assert (x = 0 ∨ x = 1 ∨ x = 2 ∨ x = 3 ∨ x = 4 ∨ x = 5 ∨ x = 6 ∨ x = 7
          ∨ x = 8 ∨ x = 9)%N as Hcases by lia.
  repeat destruct Hcases as [->|Hcases]; try subst x; reflexivity.
Qed.

Lemma numeral_char_pretty_N_char (x : N) :
  Py.digit (pretty_N_char x) ≠ None.
Proof. unfold pretty_N_char. by repeat case_match. Qed.

Lemma pretty_N_go_chars (P : ascii → bool) (x : N) (s : string) :
  (∀ d, P (pretty_N_char d) = true) → all_chars P s = true →
  all_chars P (pretty_N_go x s) = true.
Proof.
  intros Hdigit. revert s.
  induction (N.lt_wf_0 x) as [x _ IH]; intros s Hs.
  destruct (decide (x = 0)%N) as [->|Hx]; [by rewrite pretty_N_go_0|].
  rewrite pretty_N_go_step by lia. apply IH.
  - apply N.div_lt; lia.
  - simpl. by rewrite Hdigit, Hs.
Qed.

Lemma pretty_N_go_nonempty (x : N) (s : string) :
  s ≠ "" → pretty_N_go x s ≠ "".
Proof.
  revert s. induction (N.lt_wf_0 x) as [x _ IH]; intros s Hs.
  destruct (decide (x = 0)%N) as [->|Hx]; [by rewrite pretty_N_go_0|].
  rewrite pretty_N_go_step by lia. apply IH; [apply N.div_lt; lia | done].
Qed.

Lemma pretty_N_go_pos_nonempty (x : N) : (0 < x)%N → pretty_N_go x "" ≠ "".
Proof.
  intros Hx. rewrite pretty_N_go_step by done. by apply pretty_N_go_nonempty.
Qed.

Lemma pretty_N_go_digits (x : N) : all_chars is_digit (pretty_N_go x "") = true.
Proof.
  apply pretty_N_go_chars; [|done]. intros d. unfold is_digit.
  pose proof (numeral_char_pretty_N_char d). by destruct (Py.digit _).
Qed.

Lemma pretty_Z_numeral (z : Z) : all_chars numeral_char (pretty z) = true.
Proof.
  assert (∀ p, all_chars numeral_char (pretty_N_go (N.pos p) "") = true) as Hpos.
  { intros p. eapply all_chars_impl, pretty_N_go_digits.
    intros c. unfold is_digit, numeral_char. by destruct (Py.digit c). }
  destruct z as [|p|p]; [done | apply Hpos |].
  change (all_chars numeral_char (String "-" (pretty_N_go (N.pos p) "")) = true).
  simpl. apply Hpos.
Qed.

Lemma pretty_Z_nonempty (z : Z) : pretty z ≠ "".
Proof.
  destruct z as [|p|p]; [done | by apply pretty_N_go_pos_nonempty | done].
Qed.

Lemma numeral_char_not_space (c : ascii) :
  numeral_char c = true →
  negb (Py.isspace c) = true ∧ negb (Py.int_isspace c) = true.
Proof.
  destruct c as [[] [] [] [] [] [] [] []]; vm_compute; by intros.
Qed.

Lemma strip_pretty (z : Z) : Py.strip (pretty z) = pretty z.
Proof.
  assert (all_chars (λ c, negb (Py.isspace c)) (pretty z) = true) as Hchars.
  { eapply all_chars_impl, pretty_Z_numeral.
    intros c Hc. by apply numeral_char_not_space. }
  unfold Py.strip. rewrite all_chars_lstrip_by by done.
  by apply all_chars_rstrip_by.
Qed.

(** Reading a numeral written by [pretty]: the digits are consumed most
    significant first, so they continue an accumulator [acc] as
    [acc * 10 ^ k + x], [k] being their number. *)
Lemma digits_pretty_N_go (x : N) :
  (0 < x)%N →
  ∃ k : nat, (0 < k)%nat ∧ 10 ^ (Z.of_nat k - 1) ≤ Z.of_N x < 10 ^ Z.of_nat k ∧
    ∀ s b acc cnt,
      Py.digits (pretty_N_go x s) b acc cnt =
        Py.digits s true (acc * 10 ^ Z.of_nat k + Z.of_N x) (cnt + k).
Proof.
  induction (N.lt_wf_0 x) as [x _ IH]; intros Hx.
  destruct (decide (x < 10)%N) as [Hsmall|Hbig].
  - exists 1%nat.
    change (10 ^ (Z.of_nat 1 - 1)) with 1. change (10 ^ Z.of_nat 1) with 10.
    split_and!; [lia..|].
    intros s b acc cnt. rewrite pretty_N_go_step by done.
    rewrite N.div_small, pretty_N_go_0 by done. simpl.
    rewrite N.mod_small by done. rewrite digit_pretty_N_char by done.
    f_equal; lia.
  - destruct (IH (x `div` 10)%N) as (k & Hk & Hrange & Hrun).
    { apply N.div_lt; lia. }
    { apply N.div_str_pos; lia. }
    pose proof (N.mod_lt x 10 ltac:(done)) as Hmod.
    pose proof (f_equal Z.of_N (N.Div0.div_mod x 10)) as Hdm.
    rewrite N2Z.inj_add, N2Z.inj_mul in Hdm.
    assert (10 ^ Z.of_nat (S k) = 10 * 10 ^ Z.of_nat k) as Hpow
      by (rewrite Nat2Z.inj_succ, Z.pow_succ_r; lia).
    assert (10 ^ (Z.of_nat (S k) - 1) = 10 ^ Z.of_nat k) as Hpow1
      by (f_equal; lia).
    assert (10 ^ Z.of_nat k = 10 * 10 ^ (Z.of_nat k - 1)) as Hpow2.
    { rewrite <-Z.pow_succ_r by lia. f_equal. lia. }
    exists (S k). rewrite Hpow, Hpow1. split; [lia|].
    assert (∀ s b acc cnt,
      Py.digits (pretty_N_go x s) b acc cnt =
        Py.digits s true
          (10 * (acc * 10 ^ Z.of_nat k + Z.of_N (x `div` 10)) + Z.of_N (x `mod` 10))
          (S (cnt + k))) as Hstep.
    { intros s b acc cnt. rewrite pretty_N_go_step by done. rewrite Hrun.
      simpl. by rewrite digit_pretty_N_char by done. }
    revert Hrange Hmod Hdm Hpow2 Hstep.
    generalize (x `div` 10)%N (x `mod` 10)%N (10 ^ (Z.of_nat k - 1)) (10 ^ Z.of_nat k).
    intros q m a c Hrange Hmod Hdm Hpow2 Hstep. split; [lia|].
    intros s b acc cnt. rewrite Hstep. f_equal; lia.
Qed.

Lemma int_of_digits_pretty_N_go (sign : Z) (x : N) :
  (0 < x)%N → Z.of_N x < 2 ^ 63 + 1 →
  Py.int_of_digits sign (pretty_N_go x "") = Some (sign * Z.of_N x).
Proof.
  intros Hx Hrange. destruct (digits_pretty_N_go x Hx) as (k & Hk & Hbounds & Hrun).
  unfold Py.int_of_digits. rewrite Hrun. simpl.
  rewrite decide_True; [done|].
  assert (k ≤ 20)%nat; [|unfold Py.max_str_digits; lia].
  destruct (decide (k ≤ 20)%nat); [done|]. exfalso.
  assert (10 ^ 20 ≤ 10 ^ (Z.of_nat k - 1)) by (apply Z.pow_le_mono_r; lia).
  lia.
Qed.

Lemma int_of_str_unsigned (t : string) :
  all_chars is_digit t = true → Py.int_of_str t = Py.int_of_digits 1 t.
Proof.
  intros Hdigits. unfold Py.int_of_str.
  assert (all_chars (λ c, negb (Py.int_isspace c)) t = true) as Hchars.
  { eapply all_chars_impl, Hdigits. intros c Hc. apply numeral_char_not_space.
    unfold numeral_char, is_digit in *. by destruct (Py.digit c). }
  rewrite all_chars_lstrip_by, all_chars_rstrip_by by done.
  destruct t as [|c r]; [done|]. simpl in Hdigits.
  apply andb_true_iff in Hdigits as [Hc _].
  destruct c as [[] [] [] [] [] [] [] []]; try done.
Qed.

(** [int(str(z))] is [z] for every integer of the 64-bit range. *)
Lemma int_of_str_pretty (z : Z) : int64 z → Py.int_of_str (pretty z) = Some z.
Proof.
  unfold int64. intros Hz. destruct z as [|p|p]; [done | |].
  - change (pretty (Z.pos p)) with (pretty_N_go (N.pos p) "").
    rewrite int_of_str_unsigned by apply pretty_N_go_digits.
    rewrite int_of_digits_pretty_N_go by lia. f_equal; lia.
  - change (pretty (Z.neg p)) with (String "-" (pretty_N_go (N.pos p) "")).
    assert (all_chars (λ c, negb (Py.int_isspace c))
              (String "-" (pretty_N_go (N.pos p) "")) = true) as Hchars.
    { eapply all_chars_impl, (pretty_Z_numeral (Z.neg p)).
      intros c Hc. by apply numeral_char_not_space. }
    unfold Py.int_of_str.
    rewrite all_chars_lstrip_by, all_chars_rstrip_by by done.
    rewrite int_of_digits_pretty_N_go by lia. f_equal; lia.
Qed.

(** ** Every action is a transition *)

Lemma store_eta (s : store) :
  {| printers := printers s; printers_seq := printers_seq s;
     service_logs := service_logs s; service_logs_seq := service_logs_seq s |} = s.
Proof. by destruct s. Qed.

Lemma printer_params_normal (pid nm mf md : string) (h : Z) (nz : option string)
    (a : bool) :
  int64 h → normal_values (printer_params pid nm mf md h nz a).
Proof.
  intros Hh. unfold normal_values, trimmed. simpl.
  rewrite !strip_idem. split_and!; try done. destruct a; auto.
Qed.

Lemma insert_printer_transition (pid nm mf md : string) (hrs : Py.value)
    (nz : option string) (a : bool) (s : store) :
  let s' := snd (insert_printer pid nm mf md hrs nz a s) in
  s' = s ∨ transition s s'.
Proof.
  unfold insert_printer, with_connection, sql_insert_printer.
  destruct (hours_value hrs) as [h|e]; [|by left]. simpl.
  unfold bind_int. destruct (decide (int64 h)) as [Hh|]; [|by left]. simpl.
  destruct (has_printer_id _ s) eqn:Hfree; [by left|]. simpl.
  right. apply has_printer_id_false in Hfree.
  by apply (printer_inserted s _ (printer_params_normal pid nm mf md h nz a Hh)).
Qed.

Lemma update_printer_transition (db_id : Z) (pid nm mf md : string)
    (hrs : Py.value) (nz : option string) (a : bool) (s : store) :
  let s' := snd (update_printer db_id pid nm mf md hrs nz a s) in
  s' = s ∨ transition s s'.
Proof.
  unfold update_printer, with_connection, sql_update_printer.
  destruct (hours_value hrs) as [h|e]; [|by left]. simpl.
  unfold bind_int. destruct (decide (int64 h)) as [Hh|]; [|by left]. simpl.
  destruct (decide (int64 db_id)); [|by left]. simpl.
  destruct (has_printer db_id s) eqn:Hid; simpl.
  - case_bool_decide as Hclash; [by left|]. simpl. right.
    by apply (printer_updated s _ db_id
                (printer_params_normal pid nm mf md h nz a Hh)).
  - left. apply has_printer_false in Hid.
    rewrite (fmap_unmatched p_id) by done. apply store_eta.
Qed.

Lemma delete_printer_transition (db_id : Z) (s : store) :
  let s' := snd (delete_printer db_id s) in s' = s ∨ transition s s'.
Proof.
  unfold delete_printer, with_connection, sql_delete_printer, get_connection.
  destruct (bind_int db_id) as [i|e]; [|by left]. simpl. right. constructor.
Qed.

Lemma delete_log_transition (log_id : Z) (s : store) :
  let s' := snd (delete_log log_id s) in s' = s ∨ transition s s'.
Proof.
  unfold delete_log, with_connection, sql_delete_log.
  destruct (bind_int log_id) as [i|e]; [|by left]. simpl. right. constructor.
Qed.

Lemma add_log_transition (now : string) (db_id : Z) (text : string) (s : store) :
  let s' := snd (_add_log now db_id text s) in s' = s ∨ transition s s'.
Proof.
  unfold _add_log. case_decide as Hblank; [by left|].
  unfold insert_log, with_connection, sql_insert_log, get_connection.
  destruct (bind_int db_id) as [i|e]; [|by left]. simpl. right.
  apply log_inserted; [done | apply strip_idem].
Qed.

Lemma update_log_transition (log_id : Z) (text : string) (s : store) :
  let s' := snd (_update_log log_id text s) in s' = s ∨ transition s s'.
Proof.
  unfold _update_log. case_decide as Hblank; [by left|].
  unfold update_log, with_connection, sql_update_log.
  destruct (bind_int log_id) as [i|e]; [|by left]. simpl. right.
  apply log_updated; [done | apply strip_idem].
Qed.

Lemma duplicate_transition (fuel : nat) (selected : option Z) (s s' : store)
    (d : dialog) :
  duplicate_selected_printer fuel selected s = Some (d, s') →
  s' = s ∨ transition s s'.
Proof.
  unfold duplicate_selected_printer.
  destruct selected as [db_id|]; [|by intros [= _ <-]; left].
  case_decide; [by intros [= _ <-]; left|].
  destruct (get_printer_by_db_id db_id s) as [[[[[[[[src nm] mf] md] h] nz] a]|]|e];
    [| by intros [= _ <-]; left..].
  destruct (ensure_unique_printer_id fuel _ s) as [new_id|]; [|done].
  pose proof (insert_printer_transition new_id
                (Py.strip (Py.str_or (Some nm) "") +:+ " (Copy)")
                (Py.str_or mf "") (Py.str_or md "") (Py.Int (from_option id 0 h))
                (Some (Py.str_or nz "")) (truthy a) s) as Hins.
  simpl in Hins. destruct (insert_printer _ _ _ _ _ _ _ s) as [[[]|e] s''];
    by intros [= _ <-].
Qed.

Lemma run_action_transition (fuel : nat) (act : action) (s s' : store) :
  run_action fuel act s = Some s' → s' = s ∨ transition s s'.
Proof.
  destruct act; simpl.
  - intros [= <-]. apply insert_printer_transition.
  - intros [= <-]. apply update_printer_transition.
  - intros [= <-]. apply delete_printer_transition.
  - destruct (duplicate_selected_printer fuel selected s) as [[d s'']|] eqn:Hdup;
      [|done].
    intros [= <-]. by eapply duplicate_transition.
  - intros [= <-]. apply add_log_transition.
  - intros [= <-]. apply update_log_transition.
  - intros [= <-]. apply delete_log_transition.
Qed.

(** ** What every transition keeps *)

Lemma foldr_max_bounds (ids : list Z) :
  0 ≤ foldr Z.max 0 ids ∧ ∀ i, i ∈ ids → i ≤ foldr Z.max 0 ids.
Proof.
  induction ids as [|j ids [IH0 IH]]; simpl.
  - split; [done|]. intros i Hi. by apply elem_of_nil in Hi.
  - split; [lia|]. intros i [->|Hi]%elem_of_cons; [lia|].
    specialize (IH i Hi). lia.
Qed.

Lemma next_rowid_fresh (seq : Z) (ids : list Z) :
  0 < next_rowid seq ids ∧ seq < next_rowid seq ids ∧
  ∀ i, i ∈ ids → i < next_rowid seq ids.
Proof.
  unfold next_rowid. destruct (foldr_max_bounds ids) as [H0 Hmax].
  split_and!; [lia..|]. intros i Hi. specialize (Hmax i Hi). lia.
Qed.

Lemma make_printer_normal (i : Z) (v : printer_values) :
  normal_values v → normal_printer (make_printer i v).
Proof.
  intros (? & ? & ? & ? & ? & ? & ?). unfold normal_printer. simpl.
  split_and!; eauto. destruct H5 as [->| ->]; auto.
Qed.

Lemma updated_rowids (v : printer_values) (i : Z) (l : list printer_row) :
  p_id <$> ((λ p, if decide (p_id p = i) then make_printer i v else p) <$> l)
  = p_id <$> l.
Proof.
  induction l as [|p l IH]; [done|]. csimpl. rewrite IH. f_equal.
  by case_decide.
Qed.

Lemma updated_log_rowids (text : string) (i : Z) (l : list log_row) :
  l_id <$> ((λ l, if decide (l_id l = i)
                  then {| l_id := l_id l; printer_id_fk := printer_id_fk l;
                          note := text; created_at := created_at l |}
                  else l) <$> l)
  = l_id <$> l.
Proof.
  induction l as [|x l IH]; [done|]. csimpl. rewrite IH. f_equal.
  by case_decide.
Qed.

(** An update that passed the UNIQUE check leaves the identifiers
    pairwise distinct. *)
Lemma updated_printer_ids_unique (v : printer_values) (i : Z)
    (l : list printer_row) :
  NoDup (p_id <$> l) → NoDup (printer_id <$> l) →
  v_printer_id v ∉ printer_id <$> filter (λ p, p_id p ≠ i) l →
  NoDup (printer_id <$>
           ((λ p, if decide (p_id p = i) then make_printer i v else p) <$> l)).
Proof.
  induction l as [|p l IH]; [constructor|]. csimpl.
  intros [Hp Hids]%NoDup_cons [Hq Hpids]%NoDup_cons Hfree.
  destruct (decide (p_id p = i)) as [Hi|Hi].
  - rewrite filter_cons_False in Hfree by tauto.
    rewrite (fmap_unmatched p_id) by congruence.
    assert (filter (λ p, p_id p ≠ i) l = l) as Hall.
    { clear -Hp Hi. induction l as [|q l IH]; [done|].
      apply not_elem_of_cons in Hp as [Hq Hl].
      rewrite filter_cons_True by congruence. by rewrite IH. }
    rewrite Hall in Hfree. simpl. by constructor.
  - rewrite filter_cons_True in Hfree by done.
    apply not_elem_of_cons in Hfree as [Hne Hfree].
    constructor; [|by apply IH].
    intros (q & Hq' & Hin)%list_elem_of_fmap.
    apply list_elem_of_fmap in Hin as (r & -> & Hr).
    destruct (decide (p_id r = i)); simpl in Hq'; [congruence|].
    apply Hq. rewrite Hq'. by apply list_elem_of_fmap_2.
Qed.

Lemma at_rest_transition (s s' : store) :
  at_rest s → transition s s' → at_rest s'.
Proof.
  intros [Hrow Hpid Hlog Hpused Hlused Hpn Hln] Hstep.
  destruct Hstep as [v Hv Hfree|v i Hv Hfree|i|now i text Htext Htrim
                     |i text Htext Htrim|i]; constructor; simpl; try done.
  - destruct (next_rowid_fresh (printers_seq s) (p_id <$> printers s))
      as (_ & _ & Hnew).
    rewrite fmap_app. apply NoDup_app. split_and!; [done| |apply NoDup_singleton].
    intros j Hj ->%list_elem_of_singleton. specialize (Hnew _ Hj). simpl in Hnew. lia.
  - rewrite fmap_app. apply NoDup_app. split_and!; [done| |apply NoDup_singleton].
    by intros j Hj ->%list_elem_of_singleton.
  - destruct (next_rowid_fresh (printers_seq s) (p_id <$> printers s))
      as (Hpos & Hseq & _).
    intros p [Hp | ->%list_elem_of_singleton]%elem_of_app; [|simpl; lia].
    specialize (Hpused p Hp). lia.
  - intros p [Hp | ->%list_elem_of_singleton]%elem_of_app; [by apply Hpn|].
    by apply make_printer_normal.
  - by rewrite updated_rowids.
  - by apply updated_printer_ids_unique.
  - intros p (q & -> & Hq)%list_elem_of_fmap. specialize (Hpused q Hq).
    case_decide; simpl; [by subst|done].
  - intros p (q & -> & Hq)%list_elem_of_fmap.
    case_decide; [by apply make_printer_normal | by apply Hpn].
  - apply (sublist_NoDup _ _ Hrow), fmap_sublist, sublist_filter.
  - apply (sublist_NoDup _ _ Hpid), fmap_sublist, sublist_filter.
  - intros p [_ Hp]%list_elem_of_filter. by apply Hpused.
  - intros p [_ Hp]%list_elem_of_filter. by apply Hpn.
  - destruct (next_rowid_fresh (service_logs_seq s) (l_id <$> service_logs s))
      as (_ & _ & Hnew).
    rewrite fmap_app. apply NoDup_app. split_and!; [done| |apply NoDup_singleton].
    intros j Hj ->%list_elem_of_singleton. specialize (Hnew _ Hj). simpl in Hnew. lia.
  - destruct (next_rowid_fresh (service_logs_seq s) (l_id <$> service_logs s))
      as (Hpos & Hseq & _).
    intros l [Hl | ->%list_elem_of_singleton]%elem_of_app; [|simpl; lia].
    specialize (Hlused l Hl). lia.
  - intros l [Hl | ->%list_elem_of_singleton]%elem_of_app; [by apply Hln|].
    by split_and!.
  - by rewrite updated_log_rowids.
  - intros l (q & -> & Hq)%list_elem_of_fmap. specialize (Hlused q Hq).
    by case_decide.
  - intros l (q & -> & Hq)%list_elem_of_fmap. specialize (Hln q Hq).
    case_decide; [|done]. destruct Hln as (_ & _ & Hcreated). by split_and!.
  - apply (sublist_NoDup _ _ Hlog), fmap_sublist, sublist_filter.
  - intros l [_ Hl]%list_elem_of_filter. by apply Hlused.
  - intros l [_ Hl]%list_elem_of_filter. by apply Hln.
Qed.

Lemma at_rest_empty : at_rest empty_store.
Proof.
  constructor; simpl; try apply NoDup_nil_2;
    intros x Hx; by apply elem_of_nil in Hx.
Qed.

Lemma at_rest_run_actions (fuel : nat) (acts : list action) (s s' : store) :
  at_rest s → run_actions fuel acts s = Some s' → at_rest s'.
Proof.
  revert s. induction acts as [|act acts IH]; intros s Hs; simpl.
  - by intros [= <-].
  - destruct (run_action fuel act s) as [s1|] eqn:Hact; [|done]. simpl.
    apply IH.
    destruct (run_action_transition _ _ _ _ Hact) as [->|Hstep]; [done|].
    by eapply at_rest_transition.
Qed.

(** ** Stores at rest *)

Example sample_session :
  run_actions 3 sample_actions empty_store = Some sample_session_store.
Proof. reflexivity. Qed.

(** X1.  After any sequence of actions on a fresh database, the rowids
    of the printers, the [printer_id]s of the printers and the rowids of
    the service logs are each pairwise distinct: the primary keys and the
    UNIQUE constraint hold at rest. *)
Theorem keys_stay_unique (fuel : nat) (acts : list action) (s : store) :
  run_actions fuel acts empty_store = Some s →
  NoDup (p_id <$> printers s) ∧ NoDup (printer_id <$> printers s) ∧
  NoDup (l_id <$> service_logs s).
Proof.
  intros Hrun.
  destruct (at_rest_run_actions fuel acts empty_store s at_rest_empty Hrun).
  done.
Qed.

Lemma keys_stay_unique_witness :
  run_actions 3 sample_actions empty_store = Some sample_session_store ∧
  NoDup (p_id <$> printers sample_session_store) ∧
  NoDup (printer_id <$> printers sample_session_store) ∧
  NoDup (l_id <$> service_logs sample_session_store).
Proof.
  split; [reflexivity|].
  apply (keys_stay_unique 3 sample_actions). reflexivity.
Defined.

(** X2.  After any sequence of actions on a fresh database, every stored
    printer is as [insert_printer] writes it: [printer_id], [name],
    [manufacturer], [model] and [nozzle_type] are not NULL and have no white
    space left to strip, [hours] is a 64-bit integer, and [ams] is 0 or 1. *)
Theorem stored_printers_normal (fuel : nat) (acts : list action) (s : store)
    (p : printer_row) :
  run_actions fuel acts empty_store = Some s → p ∈ printers s →
  normal_printer p.
Proof.
  intros Hrun Hp.
  destruct (at_rest_run_actions fuel acts empty_store s at_rest_empty Hrun)
    as [_ _ _ _ _ Hprinters _].
  apply (Hprinters p Hp).
Qed.

Lemma stored_printers_normal_witness :
  normal_printer
    {| p_id := 2; printer_id := "printer-1-copy"; name := "Unit A (Copy)";
       manufacturer := Some "Maker"; model := Some "Model X";
       hours := Some 5; nozzle_type := Some "0.4 mm"; ams := Some 1 |}.
Proof.
  apply (stored_printers_normal 3 sample_actions sample_session_store);
    [reflexivity|]. apply list_elem_of_further, list_elem_of_here.
Defined.

(** X3.  After any sequence of actions on a fresh database, in which
    notes are added and edited through [_add_log] and [_update_log], no
    service log has an empty note: every note is non-empty and trimmed, and
    has its time stamp. *)
Theorem stored_logs_normal (fuel : nat) (acts : list action) (s : store)
    (l : log_row) :
  run_actions fuel acts empty_store = Some s → l ∈ service_logs s →
  note l ≠ "" ∧ Py.strip (note l) = note l ∧ created_at l ≠ None.
Proof.
  intros Hrun Hl.
  destruct (at_rest_run_actions fuel acts empty_store s at_rest_empty Hrun)
    as [_ _ _ _ _ _ Hlogs].
  apply (Hlogs l Hl).
Qed.

Lemma stored_logs_normal_witness :
  let l := {| l_id := 1; printer_id_fk := 1; note := "Updated log entry";
              created_at := Some "2024-05-01 10:00:00" |} in
  note l ≠ "" ∧ Py.strip (note l) = note l ∧ created_at l ≠ None.
Proof.
  apply (stored_logs_normal 3 sample_actions sample_session_store);
    [reflexivity|]. apply list_elem_of_here.
Defined.

Lemma rowids_kept_refl (s : store) : rowids_kept s s.
Proof.
  unfold rowids_kept. split_and!; [lia..| |]; intros x Hx _;
    by apply list_elem_of_fmap_2.
Qed.

Lemma rowids_kept_transition (s s1 s2 : store) :
  rowids_kept s s1 → transition s1 s2 → rowids_kept s s2.
Proof.
  intros (Hpseq & Hlseq & Hp & Hl) Hstep.
  destruct Hstep as [v Hv Hfree|v i Hv Hfree|i|now i text Htext Htrim
                     |i text Htext Htrim|i]; unfold rowids_kept; simpl.
  - destruct (next_rowid_fresh (printers_seq s1) (p_id <$> printers s1))
      as (_ & Hseq & _).
    split_and!; [lia | done | | done].
    intros p [Hin | ->%list_elem_of_singleton]%elem_of_app; [by apply Hp|].
    simpl. lia.
  - split_and!; [done..| | done].
    intros p (q & -> & Hq)%list_elem_of_fmap Hle.
    assert (p_id (if decide (p_id q = i) then make_printer i v else q) = p_id q)
      as Hsame by (by case_decide).
    rewrite Hsame in *. by apply Hp.
  - split_and!; [done..| | done].
    intros p [_ Hin]%list_elem_of_filter. by apply Hp.
  - destruct (next_rowid_fresh (service_logs_seq s1) (l_id <$> service_logs s1))
      as (_ & Hseq & _).
    split_and!; [done | lia | done |].
    intros l [Hin | ->%list_elem_of_singleton]%elem_of_app; [by apply Hl|].
    simpl. lia.
  - split_and!; [done..|].
    intros l (q & -> & Hq)%list_elem_of_fmap Hle.
    assert (l_id (if decide (l_id q = i)
                  then {| l_id := l_id q; printer_id_fk := printer_id_fk q;
                          note := text; created_at := created_at q |}
                  else q) = l_id q) as Hsame by (by case_decide).
    rewrite Hsame in *. by apply Hl.
  - split_and!; [done..|].
    intros l [_ Hin]%list_elem_of_filter. by apply Hl.
Qed.

(** X4.  Rowids are never given out twice.  Between a store and the
    store any sequence of actions turns it into, the AUTOINCREMENT counters
    do not go back, and a printer (a service log) found afterwards with a
    rowid up to the earlier counter has the rowid of a printer (a service
    log) that was there before: the rowid of a deleted row is not given to
    a later one. *)
Theorem rowids_never_reused (fuel : nat) (acts : list action) (s s' : store) :
  run_actions fuel acts s = Some s' →
  printers_seq s ≤ printers_seq s' ∧
  service_logs_seq s ≤ service_logs_seq s' ∧
  (∀ p, p ∈ printers s' → p_id p ≤ printers_seq s →
        p_id p ∈ p_id <$> printers s) ∧
  (∀ l, l ∈ service_logs s' → l_id l ≤ service_logs_seq s →
        l_id l ∈ l_id <$> service_logs s).
Proof.
  change (run_actions fuel acts s = Some s' → rowids_kept s s').
  assert (∀ s1, rowids_kept s s1 → run_actions fuel acts s1 = Some s' →
                rowids_kept s s') as Hgen.
  { induction acts as [|act acts IH]; intros s1 Hkept; simpl.
    - by intros [= <-].
    - destruct (run_action fuel act s1) as [s2|] eqn:Hact; [|done]. simpl.
      apply IH.
      destruct (run_action_transition _ _ _ _ Hact) as [->|Hstep]; [done|].
      by eapply rowids_kept_transition. }
  apply Hgen, rowids_kept_refl.
Qed.

Lemma rowids_never_reused_witness :
  let s := {| printers := [sample_printer 1 "printer-1" "Unit A" 5];
              printers_seq := 1; service_logs := []; service_logs_seq := 0 |} in
  let acts := [DoDeletePrinter 1;
               DoInsertPrinter "printer-2" "Unit B" "" "" (Py.Str "") None false] in
  run_actions 1 acts s =
    Some {| printers := [make_printer 2
                           (printer_params "printer-2" "Unit B" "" "" 0 None false)];
            printers_seq := 2; service_logs := []; service_logs_seq := 0 |} ∧
  rowids_kept s
    {| printers := [make_printer 2
                      (printer_params "printer-2" "Unit B" "" "" 0 None false)];
       printers_seq := 2; service_logs := []; service_logs_seq := 0 |}.
Proof.
  intros s acts. split; [reflexivity|].
  apply (rowids_never_reused 1 acts s). reflexivity.
Defined.

(** ** Looking up what was written *)

Section keyed.
Context {A : Type} (key : A → Z).

Lemma filter_other_key (i j : Z) (l : list A) :
  j ≠ i →
  filter (λ x, key x = j) (filter (λ x, key x ≠ i) l) = filter (λ x, key x = j) l.
Proof.
  intros Hne. induction l as [|x l IH]; [done|].
  destruct (decide (key x = i)) as [Hi|Hi].
  - rewrite (filter_cons_False (λ x, key x ≠ i)) by tauto.
    rewrite (filter_cons_False (λ x, key x = j)) by congruence. done.
  - rewrite (filter_cons_True (λ x, key x ≠ i)) by done.
    destruct (decide (key x = j)).
    + rewrite !(filter_cons_True (λ x, key x = j)) by done. by rewrite IH.
    + rewrite !(filter_cons_False (λ x, key x = j)) by done. done.
Qed.

Lemma filter_deleted_key (i : Z) (l : list A) :
  filter (λ x, key x = i) (filter (λ x, key x ≠ i) l) = [].
Proof.
  induction l as [|x l IH]; [done|].
  destruct (decide (key x = i)) as [Hi|Hi].
  - by rewrite (filter_cons_False (λ x, key x ≠ i)) by tauto.
  - rewrite (filter_cons_True (λ x, key x ≠ i)) by done.
    by rewrite (filter_cons_False (λ x, key x = i)) by done.
Qed.

Lemma filter_absent_key (i : Z) (l : list A) :
  i ∉ key <$> l → filter (λ x, key x ≠ i) l = l.
Proof.
  induction l as [|x l IH]; [done|]. csimpl.
  intros [Hx Hl]%not_elem_of_cons.
  rewrite filter_cons_True by congruence. by rewrite IH.
Qed.

Lemma filter_absent_key_nil (i : Z) (l : list A) :
  i ∉ key <$> l → filter (λ x, key x = i) l = [].
Proof.
  induction l as [|x l IH]; [done|]. csimpl.
  intros [Hx Hl]%not_elem_of_cons.
  rewrite filter_cons_False by congruence. by apply IH.
Qed.

Lemma filter_deleted_twice (i : Z) (l : list A) :
  filter (λ x, key x ≠ i) (filter (λ x, key x ≠ i) l) = filter (λ x, key x ≠ i) l.
Proof.
  apply filter_absent_key.
  intros (x & Hx & [Hne _]%list_elem_of_filter)%list_elem_of_fmap. congruence.
Qed.

(** After [UPDATE ... WHERE key = i] the rows of another key are the
    rows there were, and the first row of key [i], if there was one, is
    the new row. *)
Lemma filter_updated_other (f : A → A) (i j : Z) (l : list A) :
  j ≠ i → (∀ x, key x = i → key (f x) = i) →
  filter (λ x, key x = j) ((λ x, if decide (key x = i) then f x else x) <$> l)
  = filter (λ x, key x = j) l.
Proof.
  intros Hne Hf. induction l as [|x l IH]; [done|]. csimpl.
  destruct (decide (key x = i)) as [Hi|Hi].
  - rewrite !filter_cons_False; [done | congruence |].
    rewrite (Hf x Hi). congruence.
  - destruct (decide (key x = j)).
    + rewrite !filter_cons_True by done. by rewrite IH.
    + by rewrite !filter_cons_False by done.
Qed.

Lemma head_filter_updated (f : A → A) (i : Z) (l : list A) :
  (∀ x, key x = i → key (f x) = i) →
  head (filter (λ x, key x = i)
          ((λ x, if decide (key x = i) then f x else x) <$> l))
  = f <$> head (filter (λ x, key x = i) l).
Proof.
  intros Hf. induction l as [|x l IH]; [done|]. csimpl.
  destruct (decide (key x = i)) as [Hi|Hi].
  - rewrite !filter_cons_True by auto. done.
  - by rewrite !filter_cons_False by done.
Qed.

End keyed.

Lemma get_printer_by_db_id_ok (db_id : Z) (s : store) :
  int64 db_id →
  get_printer_by_db_id db_id s =
    Ok (fields_of <$> head (filter (λ p, p_id p = db_id) (printers s))).
Proof.
  intros Hid. unfold get_printer_by_db_id, with_connection, sql_select_printer.
  by rewrite bind_int_ok.
Qed.

(** [get_printer_by_db_id] depends on the store through the rows that
    have the id. *)
Lemma get_printer_by_db_id_ext (db_id : Z) (s s' : store) :
  filter (λ p, p_id p = db_id) (printers s')
    = filter (λ p, p_id p = db_id) (printers s) →
  get_printer_by_db_id db_id s' = get_printer_by_db_id db_id s.
Proof.
  intros Hrows. unfold get_printer_by_db_id, with_connection, sql_select_printer.
  destruct (bind_int db_id) as [i|e] eqn:Hbind; [|done].
  unfold bind_int in Hbind. case_decide; [|done]. simplify_eq/=.
  by rewrite Hrows.
Qed.

(** X5.  Insert then look up.  A successful [insert_printer] gives the new
    row a rowid no stored printer has; [get_printer_by_db_id] on that rowid
    returns the values as stored (text trimmed, a missing nozzle type as the
    empty string, [ams] as 0 or 1), and on every other id it returns what it
    returned before the insert. *)
Theorem insert_printer_then_get
    (pid nm mf md : string) (hrs : Py.value) (nz : option string) (a : bool)
    (s : store) (h : Z) :
  hours_value hrs = Ok h → int64 h →
  Py.strip pid ∉ printer_id <$> printers s →
  int64 (next_rowid (printers_seq s) (p_id <$> printers s)) →
  let rowid := next_rowid (printers_seq s) (p_id <$> printers s) in
  let s' := snd (insert_printer pid nm mf md hrs nz a s) in
  (rowid ∉ p_id <$> printers s) ∧
  get_printer_by_db_id rowid s' =
    Ok (Some (Py.strip pid, Py.strip nm, Some (Py.strip mf), Some (Py.strip md),
              Some h, Some (Py.strip (Py.str_or nz "")),
              Some (if a then 1 else 0))) ∧
  ∀ j, j ≠ rowid → get_printer_by_db_id j s' = get_printer_by_db_id j s.
Proof.
  intros Hh Hrange Hfree Hrowid rowid s'.
  assert (rowid ∉ p_id <$> printers s) as Hnew.
  { intros Hin.
    destruct (next_rowid_fresh (printers_seq s) (p_id <$> printers s))
      as (_ & _ & Hlt).
    specialize (Hlt _ Hin). unfold rowid in Hlt. lia. }
  unfold s'. rewrite (insert_printer_free _ _ _ _ _ _ _ _ h) by done. simpl.
  fold rowid. split_and!; [done | |].
  - rewrite get_printer_by_db_id_ok by done. simpl.
    rewrite filter_app, (filter_absent_key_nil p_id) by done.
    by rewrite filter_cons_True by done.
  - intros j Hj. apply get_printer_by_db_id_ext. simpl.
    rewrite filter_app, filter_cons_False by (simpl; congruence).
    by rewrite filter_nil, app_nil_r.
Qed.

Lemma insert_printer_then_get_witness :
  get_printer_by_db_id 2
    (snd (insert_printer " machine-2 " "Printer Copy" "Maker" "Model" (Py.Str "7")
            None true store_machine)) =
    Ok (Some ("machine-2", "Printer Copy", Some "Maker", Some "Model", Some 7,
              Some "", Some 1)).
Proof.
  refine (proj1 (proj2 (insert_printer_then_get " machine-2 " "Printer Copy"
                          "Maker" "Model" (Py.Str "7") None true store_machine 7
                          _ _ _ _))).
  - reflexivity.
  - unfold int64. lia.
  - by apply (bool_decide_unpack _).
  - vm_compute. split; [discriminate | reflexivity].
Defined.

(** X6.  Update then look up.  [update_printer] on a stored id, with a
    [printer_id] that no other row has (the row's own is allowed), returns
    normally; afterwards [get_printer_by_db_id] on that id returns the new
    values and on every other id what it returned before, the number of
    printers is the same, and the service logs are untouched. *)
Theorem update_printer_then_get
    (db_id : Z) (pid nm mf md : string) (hrs : Py.value) (nz : option string)
    (a : bool) (s : store) (h : Z) :
  db_id ∈ p_id <$> printers s → int64 db_id →
  hours_value hrs = Ok h → int64 h →
  Py.strip pid ∉ printer_id <$> filter (λ p, p_id p ≠ db_id) (printers s) →
  let r := update_printer db_id pid nm mf md hrs nz a s in
  fst r = Ok tt ∧
  get_printer_by_db_id db_id (snd r) =
    Ok (Some (Py.strip pid, Py.strip nm, Some (Py.strip mf), Some (Py.strip md),
              Some h, Some (Py.strip (Py.str_or nz "")),
              Some (if a then 1 else 0))) ∧
  (∀ j, j ≠ db_id → get_printer_by_db_id j (snd r) = get_printer_by_db_id j s) ∧
  length (printers (snd r)) = length (printers s) ∧
  service_logs (snd r) = service_logs s.
Proof.
  intros Hin Hid Hh Hrange Hfree.
  unfold update_printer, with_connection, sql_update_printer.
  rewrite Hh. simpl. rewrite !bind_int_ok by done. simpl.
  rewrite (proj2 (has_printer_true db_id s) Hin). simpl.
  rewrite bool_decide_eq_false_2 by done. simpl.
  split_and!; [done | | | by rewrite length_fmap | done].
  - rewrite get_printer_by_db_id_ok by done. simpl.
    rewrite (head_filter_updated p_id) by done.
    apply list_elem_of_fmap in Hin as (p & Hp & Hin).
    destruct (filter (λ p, p_id p = db_id) (printers s)) as [|q l] eqn:Hrows;
      [|done].
    assert (p ∈ filter (λ p, p_id p = db_id) (printers s)) as Hp'
      by (by apply list_elem_of_filter).
    rewrite Hrows in Hp'. by apply elem_of_nil in Hp'.
  - intros j Hj. apply get_printer_by_db_id_ext. simpl.
    by apply (filter_updated_other p_id).
Qed.

Lemma update_printer_then_get_witness :
  let r := update_printer 1 "machine" " Renamed " "Maker" "Model X" (Py.Str "12")
             (Some "0.6 mm") true store_machine_2 in
  fst r = Ok tt ∧
  get_printer_by_db_id 1 (snd r) =
    Ok (Some ("machine", "Renamed", Some "Maker", Some "Model X", Some 12,
              Some "0.6 mm", Some 1)).
Proof.
  destruct (update_printer_then_get 1 "machine" " Renamed " "Maker" "Model X"
              (Py.Str "12") (Some "0.6 mm") true store_machine_2 12)
    as (Hok & Hget & _).
  - by apply (bool_decide_unpack _).
  - unfold int64. lia.
  - reflexivity.
  - unfold int64. lia.
  - by apply (bool_decide_unpack _).
  - by split.
Defined.

(** X7.  [update_printer] enforces the UNIQUE constraint against the other
    rows: on a stored id, with a trimmed [printer_id] that another printer
    has, it raises the store's [IntegrityError] and the store is left as it
    was. *)
Theorem update_printer_duplicate_rejected
    (db_id : Z) (pid nm mf md : string) (hrs : Py.value) (nz : option string)
    (a : bool) (s : store) (h : Z) (other : printer_row) :
  db_id ∈ p_id <$> printers s → int64 db_id →
  hours_value hrs = Ok h → int64 h →
  other ∈ printers s → p_id other ≠ db_id → printer_id other = Py.strip pid →
  update_printer db_id pid nm mf md hrs nz a s = (Raise unique_failed, s).
Proof.
  intros Hin Hid Hh Hrange Hother Hne Hsame.
  unfold update_printer, with_connection, sql_update_printer.
  rewrite Hh. simpl. rewrite !bind_int_ok by done. simpl.
  rewrite (proj2 (has_printer_true db_id s) Hin). simpl.
  rewrite bool_decide_eq_true_2; [done|].
  apply list_elem_of_fmap. exists other. split; [done|].
  by apply list_elem_of_filter.
Qed.

Lemma update_printer_duplicate_rejected_witness :
  update_printer 2 " machine " "Printer Copy" "Maker" "Model" (Py.Str "0")
    (Some "0.4 mm") false store_machine_2 = (Raise unique_failed, store_machine_2).
Proof.
  apply (update_printer_duplicate_rejected 2 " machine " "Printer Copy" "Maker"
           "Model" (Py.Str "0") (Some "0.4 mm") false store_machine_2 0
           (sample_printer 1 "machine" "Printer 1" 5)).
  - by apply (bool_decide_unpack _).
  - unfold int64. lia.
  - reflexivity.
  - unfold int64. lia.
  - apply list_elem_of_here.
  - discriminate.
  - reflexivity.
Defined.

(** X8.  [delete_printer] returns normally; afterwards
    [get_printer_by_db_id] finds nothing under the id and returns on every
    other id what it returned before; the service logs and both counters are
    as before; deleting the same id again, or an id that is not stored,
    changes nothing. *)
Theorem delete_printer_then_get (db_id : Z) (s : store) :
  int64 db_id →
  let r := delete_printer db_id s in
  fst r = Ok tt ∧
  get_printer_by_db_id db_id (snd r) = Ok None ∧
  (∀ j, j ≠ db_id → get_printer_by_db_id j (snd r) = get_printer_by_db_id j s) ∧
  service_logs (snd r) = service_logs s ∧
  printers_seq (snd r) = printers_seq s ∧
  delete_printer db_id (snd r) = (Ok tt, snd r) ∧
  (db_id ∉ p_id <$> printers s → snd r = s).
Proof.
  intros Hid.
  assert (∀ s0, delete_printer db_id s0 =
                  (Ok tt, {| printers := filter (λ p, p_id p ≠ db_id) (printers s0);
                             printers_seq := printers_seq s0;
                             service_logs := service_logs s0;
                             service_logs_seq := service_logs_seq s0 |})) as Hrun.
  { intros s0. unfold delete_printer, with_connection, sql_delete_printer.
    by rewrite bind_int_ok. }
  simpl. rewrite !Hrun. simpl. split_and!; try done.
  - rewrite get_printer_by_db_id_ok by done. simpl.
    by rewrite (filter_deleted_key p_id).
  - intros j Hj. apply get_printer_by_db_id_ext. simpl.
    by apply (filter_other_key p_id).
  - by rewrite (filter_deleted_twice p_id).
  - intros Habsent. rewrite (filter_absent_key p_id) by done. apply store_eta.
Qed.

Lemma delete_printer_then_get_witness :
  int64 1 ∧
  get_printer_by_db_id 1 (snd (delete_printer 1 store_machine_2)) = Ok None ∧
  get_printer_by_db_id 2 (snd (delete_printer 1 store_machine_2)) =
    Ok (Some ("machine-2", "Printer Copy", Some "Maker", Some "Model X", Some 0,
              Some "0.4 mm", Some 0)).
Proof.
  assert (int64 1) as Hid by (unfold int64; lia).
  destruct (delete_printer_then_get 1 store_machine_2 Hid)
    as (_ & Hgone & Hothers & _).
  split_and!; [done | done |].
  rewrite (Hothers 2); [reflexivity | discriminate].
Defined.

(** X9.  [delete_log] returns normally and removes the service logs with
    the id and no other: a log is stored afterwards exactly when it was
    stored before and has another id.  The printers are untouched; deleting
    the same id again, or an id that no log has, changes nothing (no error is
    raised for an absent id). *)
Theorem delete_log_removes (log_id : Z) (s : store) :
  int64 log_id →
  let r := delete_log log_id s in
  fst r = Ok tt ∧
  (∀ l, l ∈ service_logs (snd r) ↔ l ∈ service_logs s ∧ l_id l ≠ log_id) ∧
  printers (snd r) = printers s ∧
  delete_log log_id (snd r) = (Ok tt, snd r) ∧
  (log_id ∉ l_id <$> service_logs s → snd r = s).
Proof.
  intros Hid.
  assert (∀ s0, delete_log log_id s0 =
                  (Ok tt, {| printers := printers s0;
                             printers_seq := printers_seq s0;
                             service_logs :=
                               filter (λ l, l_id l ≠ log_id) (service_logs s0);
                             service_logs_seq := service_logs_seq s0 |})) as Hrun.
  { intros s0. unfold delete_log, with_connection, sql_delete_log.
    by rewrite bind_int_ok. }
  simpl. rewrite !Hrun. simpl. split_and!; try done.
  - intros l. rewrite list_elem_of_filter. tauto.
  - by rewrite (filter_deleted_twice l_id).
  - intros Habsent. rewrite (filter_absent_key l_id) by done. apply store_eta.
Qed.

Lemma delete_log_removes_witness :
  int64 1 ∧
  delete_log 1 store_with_log =
    (Ok tt,
     {| printers := printers store_with_log; printers_seq := 1;
        service_logs := []; service_logs_seq := 1 |}) ∧
  delete_log 7 store_with_log = (Ok tt, store_with_log).
Proof.
  assert (int64 1) as Hid by (unfold int64; lia).
  assert (int64 7) as Hid7 by (unfold int64; lia).
  split_and!; [done | reflexivity |].
  destruct (delete_log_removes 7 store_with_log Hid7) as (Hok & _ & _ & _ & Hsame).
  rewrite (surjective_pairing (delete_log 7 store_with_log)).
  rewrite Hok, Hsame; [done|]. by apply (bool_decide_unpack _).
Defined.

(** ** Operations that keep the logs attached *)

Lemma no_orphans_ids (s s' : store) :
  service_logs s' = service_logs s →
  (∀ i, i ∈ p_id <$> printers s → i ∈ p_id <$> printers s') →
  no_orphans s → no_orphans s'.
Proof.
  intros Hlogs Hids Hs l Hl. rewrite Hlogs in Hl. by apply Hids, Hs.
Qed.

(** X10.  Apart from the two defective paths of C1, the operations keep
    every service log attached to a stored printer: on a store without
    orphans, [insert_printer], [update_printer], [update_log] and
    [delete_log] leave no orphan, [insert_log] leaves none when the printer
    id is stored, and [delete_printer] leaves none when no log refers to the
    printer. *)
Theorem no_orphans_preserved
    (db_id log_id : Z) (pid nm mf md now text : string) (hrs : Py.value)
    (nz : option string) (a : bool) (s : store) :
  no_orphans s →
  no_orphans (snd (insert_printer pid nm mf md hrs nz a s)) ∧
  no_orphans (snd (update_printer db_id pid nm mf md hrs nz a s)) ∧
  no_orphans (snd (update_log log_id text s)) ∧
  no_orphans (snd (delete_log log_id s)) ∧
  (db_id ∈ p_id <$> printers s → no_orphans (snd (insert_log now db_id text s))) ∧
  (db_id ∉ printer_id_fk <$> service_logs s →
   no_orphans (snd (delete_printer db_id s))).
Proof.
  intros Hs. split_and!.
  - unfold insert_printer, with_connection, sql_insert_printer.
    destruct (hours_value hrs) as [h|e]; [|done]. simpl.
    destruct (bind_int h); [|done]. simpl.
    destruct (has_printer_id _ s); [done|]. simpl.
    intros l Hl. simpl in *. rewrite fmap_app. apply elem_of_app. left.
    by apply Hs.
  - unfold update_printer, with_connection, sql_update_printer.
    destruct (hours_value hrs) as [h|e]; [|done]. simpl.
    destruct (bind_int h); [|done]. simpl.
    destruct (bind_int db_id) as [i|]; [|done]. simpl.
    destruct (_ && _); [done|]. simpl.
    intros l Hl. simpl in *. rewrite updated_rowids. by apply Hs.
  - unfold update_log, with_connection, sql_update_log.
    destruct (bind_int log_id) as [i|]; [|done]. simpl.
    intros l (q & -> & Hq)%list_elem_of_fmap. simpl.
    specialize (Hs q Hq). by case_decide.
  - unfold delete_log, with_connection, sql_delete_log.
    destruct (bind_int log_id) as [i|]; [|done]. simpl.
    intros l [_ Hl]%list_elem_of_filter. by apply Hs.
  - intros Hin. unfold insert_log, with_connection, sql_insert_log.
    destruct (bind_int db_id) as [i|] eqn:Hbind; [|done]. simpl.
    unfold bind_int in Hbind. case_decide; [|done]. simplify_eq/=.
    intros l [Hl | ->%list_elem_of_singleton]%elem_of_app; [by apply Hs | done].
  - intros Hunused. unfold delete_printer, with_connection, sql_delete_printer.
    destruct (bind_int db_id) as [i|] eqn:Hbind; [|done]. simpl.
    unfold bind_int in Hbind. case_decide; [|done]. simplify_eq/=.
    intros l Hl. simpl in *.
    destruct (proj1 (list_elem_of_fmap _ _ _) (Hs l Hl)) as (p & Hp & Hin).
    apply list_elem_of_fmap. exists p. split; [done|].
    apply list_elem_of_filter. split; [|done].
    intros Heq. apply Hunused. apply list_elem_of_fmap. exists l.
    split; [congruence | done].
Qed.

Lemma no_orphans_preserved_witness :
  no_orphans store_with_log ∧
  no_orphans (snd (insert_log "2024-05-02 09:00:00" 1 "Nozzle changed"
                     store_with_log)) ∧
  no_orphans (snd (delete_printer 2 store_with_log)).
Proof.
  assert (no_orphans store_with_log) as Hs by (by apply (bool_decide_unpack _)).
  destruct (no_orphans_preserved 1 1 "" "" "" "" "2024-05-02 09:00:00"
              "Nozzle changed" (Py.Str "") None false store_with_log Hs)
    as (_ & _ & _ & _ & Hinsert & _).
  destruct (no_orphans_preserved 2 1 "" "" "" "" "" "" (Py.Str "") None false
              store_with_log Hs)
    as (_ & _ & _ & _ & _ & Hdelete).
  split_and!; [done | |].
  - apply Hinsert. by apply (bool_decide_unpack _).
  - apply Hdelete. by apply (bool_decide_unpack _).
Defined.

(** ** Listing the logs of a printer *)

Global Instance text_le_total : Total text_le.
Proof.
  intros [x|] [y|]; simpl; auto. destruct (total String.le x y); auto.
Qed.

Global Instance text_le_trans : Transitive text_le.
Proof. intros [x|] [y|] [z|]; simpl; try done. by etrans. Qed.

Global Instance by_created_at_desc_total : Total by_created_at_desc.
Proof. intros l1 l2. unfold by_created_at_desc. apply (total text_le). Qed.

Global Instance by_created_at_desc_trans : Transitive by_created_at_desc.
Proof.
  intros l1 l2 l3 H12 H23. unfold by_created_at_desc in *. by etrans.
Qed.

Lemma fetch_logs_for_ok (db_id : Z) (s : store) :
  int64 db_id →
  fetch_logs_for db_id s =
    Ok (log_fields_of <$>
          merge_sort by_created_at_desc
            (filter (λ l, printer_id_fk l = db_id) (service_logs s))).
Proof.
  intros Hid. unfold fetch_logs_for, with_connection, sql_select_logs.
  by rewrite bind_int_ok.
Qed.

Lemma fetch_logs_for_ext (db_id : Z) (s s' : store) :
  filter (λ l, printer_id_fk l = db_id) (service_logs s')
    = filter (λ l, printer_id_fk l = db_id) (service_logs s) →
  fetch_logs_for db_id s' = fetch_logs_for db_id s.
Proof.
  intros Hrows. unfold fetch_logs_for, with_connection, sql_select_logs.
  destruct (bind_int db_id) as [i|e] eqn:Hbind; [|done].
  unfold bind_int in Hbind. case_decide; [|done]. simplify_eq/=.
  by rewrite Hrows.
Qed.

(** X11.  [fetch_logs_for] returns the id, time stamp and note of exactly
    the service logs of the given printer, each as often as it is stored,
    most recent first: every row stands before every later row in the order
    of [created_at] descending. *)
Theorem fetch_logs_for_sorted (db_id : Z) (s : store) :
  int64 db_id →
  ∃ rows, fetch_logs_for db_id s = Ok rows ∧
    rows ≡ₚ log_fields_of <$>
              filter (λ l, printer_id_fk l = db_id) (service_logs s) ∧
    StronglySorted newest_first rows.
Proof.
  intros Hid. rewrite fetch_logs_for_ok by done. eexists. split_and!; [done| |].
  - by rewrite merge_sort_Permutation.
  - eapply StronglySorted_fmap; [|apply StronglySorted_merge_sort; apply _].
    by intros l1 l2.
Qed.

Lemma fetch_logs_for_sorted_witness :
  int64 1 ∧
  ∃ rows, fetch_logs_for 1 sample_session_store = Ok rows ∧
    rows ≡ₚ log_fields_of <$>
              filter (λ l, printer_id_fk l = 1) (service_logs sample_session_store) ∧
    StronglySorted newest_first rows.
Proof.
  assert (int64 1) as Hid by (unfold int64; lia).
  split; [done|]. apply (fetch_logs_for_sorted 1 sample_session_store Hid).
Defined.

(** X12.  Insert a log, then list.  [insert_log] returns normally (whatever
    the printer id) and leaves the printers untouched; the list of that
    printer then contains the new log with its fresh rowid, the time of the
    insert and the trimmed note, and the list of every other printer is the
    list it was. *)
Theorem insert_log_then_fetch (now : string) (db_id : Z) (text : string)
    (s : store) :
  int64 db_id →
  let r := insert_log now db_id text s in
  fst r = Ok tt ∧ printers (snd r) = printers s ∧
  (∃ rows, fetch_logs_for db_id (snd r) = Ok rows ∧
     (next_rowid (service_logs_seq s) (l_id <$> service_logs s), Some now,
      Py.strip text) ∈ rows) ∧
  ∀ j, j ≠ db_id → fetch_logs_for j (snd r) = fetch_logs_for j s.
Proof.
  intros Hid. unfold insert_log, with_connection, sql_insert_log.
  rewrite bind_int_ok by done. simpl. split_and!; [done | done | |].
  - rewrite fetch_logs_for_ok by done. eexists. split; [done|]. simpl.
    rewrite merge_sort_Permutation.
    rewrite filter_app, filter_cons_True by done.
    rewrite fmap_app. apply elem_of_app. right. apply list_elem_of_here.
  - intros j Hj. apply fetch_logs_for_ext. simpl.
    rewrite filter_app, filter_cons_False by (simpl; congruence).
    by rewrite filter_nil, app_nil_r.
Qed.

Lemma insert_log_then_fetch_witness :
  int64 1 ∧
  ∃ rows, fetch_logs_for 1
            (snd (insert_log "2024-05-04 12:00:00" 1 " Belt tightened "
                    sample_session_store)) = Ok rows ∧
          (3, Some "2024-05-04 12:00:00", "Belt tightened") ∈ rows.
Proof.
  assert (int64 1) as Hid by (unfold int64; lia).
  split; [done|].
  destruct (insert_log_then_fetch "2024-05-04 12:00:00" 1 " Belt tightened "
              sample_session_store Hid) as (_ & _ & Hrows & _).
  exact Hrows.
Defined.

(** ** Identifiers and hours as the operations pass them on *)

Lemma str_or_some (t : string) : Py.str_or (Some t) "" = t.
Proof. by destruct t. Qed.

Lemma numeral_rstrip (z : Z) :
  Py.rstrip_by Py.isspace ("-" +:+ pretty z) = "-" +:+ pretty z.
Proof.
  apply all_chars_rstrip_by.
  change ("-" +:+ pretty z) with (String "-" (pretty z)). simpl.
  eapply all_chars_impl, pretty_Z_numeral.
  intros c Hc. by apply numeral_char_not_space.
Qed.

Lemma probe_sequence_trimmed (base : string) (k : nat) :
  base ≠ "" → trimmed base → trimmed (probe_sequence base k).
Proof.
  intros Hbase Htrim. destruct k as [|k]; [done|]. unfold trimmed. simpl.
  apply strip_fixed_app; [done | done | done | apply numeral_rstrip].
Qed.

Lemma trimmed_or_default_trimmed (b : string) :
  trimmed_or_default b ≠ "" ∧ trimmed (trimmed_or_default b).
Proof.
  unfold trimmed_or_default, trimmed. case_decide; [done|].
  split; [done | apply strip_idem].
Qed.

Lemma hours_value_int (h : Z) : hours_value (Py.Int h) = Ok h.
Proof.
  unfold hours_value. simpl. rewrite strip_pretty.
  rewrite decide_True; [done | apply pretty_Z_nonempty].
Qed.

Lemma hours_value_numeral (h : Z) :
  int64 h → hours_value (Py.Str (pretty h)) = Ok h.
Proof.
  intros Hh. unfold hours_value. simpl. rewrite strip_pretty.
  rewrite decide_True by apply pretty_Z_nonempty.
  by rewrite int_of_str_pretty.
Qed.

(** X13.  An identifier that [ensure_unique_printer_id] returns can be
    inserted as it is: for every argument and store, [insert_printer] with
    the returned identifier (and hours that parse and fit) returns normally
    and stores it unchanged, with no UNIQUE violation and nothing stripped
    from it. *)
Theorem ensure_unique_printer_id_then_insert
    (base_printer_id nm mf md : string) (hrs : Py.value) (nz : option string)
    (a : bool) (s : store) (fuel : nat) (h : Z) :
  (length (printers s) < fuel)%nat →
  hours_value hrs = Ok h → int64 h →
  ∃ new_printer_id row,
    ensure_unique_printer_id fuel base_printer_id s = Some new_printer_id ∧
    insert_printer new_printer_id nm mf md hrs nz a s =
      (Ok tt,
       {| printers := printers s ++ [row];
          printers_seq := p_id row;
          service_logs := service_logs s;
          service_logs_seq := service_logs_seq s |}) ∧
    printer_id row = new_printer_id.
Proof.
  intros Hfuel Hh Hrange.
  destruct (probe_first_free get_connection s
              (trimmed_or_default base_printer_id) fuel Hfuel)
    as (k & _ & Hrun & Hfree & _).
  destruct (trimmed_or_default_trimmed base_printer_id) as [Hne Htrim].
  pose proof (probe_sequence_trimmed _ k Hne Htrim) as Hcand.
  unfold trimmed in Hcand.
  exists (probe_sequence (trimmed_or_default base_printer_id) k).
  eexists (make_printer _ _). split_and!.
  - rewrite ensure_unique_printer_id_unfold, Hrun. done.
  - rewrite (insert_printer_free _ _ _ _ _ _ _ _ h);
      [reflexivity | done | done | by rewrite Hcand].
  - simpl. exact Hcand.
Qed.

Lemma ensure_unique_printer_id_then_insert_witness :
  ∃ new_printer_id row,
    ensure_unique_printer_id 3 " machine " store_machine_2 = Some new_printer_id ∧
    insert_printer new_printer_id "Printer 3" "Maker" "Model X" (Py.Str "")
      None false store_machine_2 =
      (Ok tt,
       {| printers := printers store_machine_2 ++ [row];
          printers_seq := p_id row;
          service_logs := [];
          service_logs_seq := 0 |}) ∧
    printer_id row = new_printer_id.
Proof.
  apply (ensure_unique_printer_id_then_insert " machine " "Printer 3" "Maker"
           "Model X" (Py.Str "") None false store_machine_2 3 0);
    [simpl; lia | reflexivity | unfold int64; lia].
Defined.

(** X14.  Hours that are an integer pass the validation as they are,
    whether they come as a Python integer or as its decimal text: for every
    64-bit integer the two inserts, and the two updates, do the same, and an
    insert under a free [printer_id] stores exactly that integer. *)
Theorem integer_hours_round_trip
    (db_id h : Z) (pid nm mf md : string) (nz : option string) (a : bool)
    (s : store) :
  int64 h →
  insert_printer pid nm mf md (Py.Str (pretty h)) nz a s =
    insert_printer pid nm mf md (Py.Int h) nz a s ∧
  update_printer db_id pid nm mf md (Py.Str (pretty h)) nz a s =
    update_printer db_id pid nm mf md (Py.Int h) nz a s ∧
  (Py.strip pid ∉ printer_id <$> printers s →
   ∃ row, insert_printer pid nm mf md (Py.Int h) nz a s =
            (Ok tt,
             {| printers := printers s ++ [row];
                printers_seq := p_id row;
                service_logs := service_logs s;
                service_logs_seq := service_logs_seq s |}) ∧
          hours row = Some h).
Proof.
  intros Hh. split_and!.
  - unfold insert_printer. by rewrite hours_value_numeral, hours_value_int.
  - unfold update_printer. by rewrite hours_value_numeral, hours_value_int.
  - intros Hfree.
    rewrite (insert_printer_free _ _ _ _ _ _ _ _ h);
      [|apply hours_value_int | done | done].
    by eexists (make_printer _ _).
Qed.

Lemma integer_hours_round_trip_witness :
  int64 (-1200) ∧
  insert_printer "machine-9" "Printer 9" "Maker" "Model X" (Py.Str "-1200")
    None false store_machine =
  insert_printer "machine-9" "Printer 9" "Maker" "Model X" (Py.Int (-1200))
    None false store_machine.
Proof.
  assert (int64 (-1200)) as Hh by (unfold int64; lia).
  split; [done|].
  apply (integer_hours_round_trip 1 (-1200) "machine-9" "Printer 9" "Maker"
           "Model X" None false store_machine Hh).
Defined.



(** ** Duplicating a printer *)

Lemma head_filter_unique {A} (key : A → Z) (l : list A) (p : A) :
  NoDup (key <$> l) → p ∈ l → head (filter (λ x, key x = key p) l) = Some p.
Proof.
  induction l as [|x l IH]; csimpl; [by intros _ ?%elem_of_nil|].
  intros [Hx Hl]%NoDup_cons [->|Hp]%elem_of_cons.
  - by rewrite filter_cons_True.
  - rewrite filter_cons_False; [by apply IH|].
    intros Heq. apply Hx. rewrite Heq. by apply list_elem_of_fmap_2.
Qed.

Lemma copy_base (pid : string) :
  trimmed pid → trimmed_or_default (pid +:+ "-copy") = pid +:+ "-copy".
Proof.
  intros Htrim.
  assert (Py.strip (pid +:+ "-copy") = pid +:+ "-copy") as Hfix.
  { destruct pid as [|c r]; [reflexivity|]. by apply strip_fixed_app. }
  unfold trimmed_or_default. rewrite Hfix, decide_False; [done|].
  by destruct pid.
Qed.

Lemma copy_name (n : string) :
  trimmed n →
  Py.strip (Py.strip (Py.str_or (Some n) "") +:+ " (Copy)") =
    if decide (n = "") then "(Copy)" else n +:+ " (Copy)".
Proof.
  intros Htrim. rewrite str_or_some, Htrim.
  case_decide as Hn; [by subst|]. by apply strip_fixed_app.
Qed.

(** X16.  Duplicating a stored printer succeeds.  On a store at rest,
    with a probe bound above the number of printers,
    [duplicate_selected_printer] on the rowid of a stored printer reports
    the duplication and appends exactly one row: its [printer_id] is the
    first of [<source>-copy], [<source>-copy-2], [<source>-copy-3], ... that
    is not stored, its name is the source's followed by [" (Copy)"] (only
    ["(Copy)"] when the source's name is empty), and manufacturer, model,
    hours, nozzle type and ams are the source's.  The service logs are not
    copied. *)
Theorem duplicate_selected_printer_copies (fuel : nat) (s : store)
    (p : printer_row) :
  at_rest s → p ∈ printers s → int64 (p_id p) →
  (length (printers s) < fuel)%nat →
  ∃ k,
    let base := printer_id p +:+ "-copy" in
    let new_printer_id := probe_sequence base k in
    let rowid := next_rowid (printers_seq s) (p_id <$> printers s) in
    (new_printer_id ∉ printer_id <$> printers s) ∧
    (∀ j, (j < k)%nat → probe_sequence base j ∈ printer_id <$> printers s) ∧
    duplicate_selected_printer fuel (Some (p_id p)) s =
      Some (showinfo "Duplicated"
              ("Printer duplicated as " +:+ new_printer_id +:+ "."),
            {| printers := printers s ++
                 [{| p_id := rowid;
                     printer_id := new_printer_id;
                     name := if decide (name p = "") then "(Copy)"
                             else name p +:+ " (Copy)";
                     manufacturer := manufacturer p;
                     model := model p;
                     hours := hours p;
                     nozzle_type := nozzle_type p;
                     ams := ams p |}];
               printers_seq := rowid;
               service_logs := service_logs s;
               service_logs_seq := service_logs_seq s |}).
Proof.
  intros Hrest Hp Hid Hfuel.
  destruct Hrest as [Hrow _ _ Hused _ Hnormal _].
  destruct (Hnormal p Hp)
    as (Hpid & Hname & (mf & Hmf & Hmft) & (md & Hmd & Hmdt) & (h & Hh & Hhr)
        & (nz & Hnz & Hnzt) & Hams).
  destruct (probe_first_free get_connection s (printer_id p +:+ "-copy") fuel Hfuel)
    as (k & _ & Hrun & Hfree & Hbelow).
  exists k. simpl. split_and!; [done | done |].
  assert (trimmed (probe_sequence (printer_id p +:+ "-copy") k)) as Hcand.
  { rewrite <-(copy_base _ Hpid).
    destruct (trimmed_or_default_trimmed (printer_id p +:+ "-copy")).
    by apply probe_sequence_trimmed. }
  unfold duplicate_selected_printer.
  rewrite decide_False by (specialize (Hused p Hp); lia).
  rewrite get_printer_by_db_id_ok by done.
  rewrite (head_filter_unique p_id) by done.
  cbn [fmap option_fmap option_map fields_of].
  rewrite ensure_unique_printer_id_unfold, copy_base, Hrun by done.
  cbn [fmap option_fmap option_map fst].
  rewrite (insert_printer_free _ _ _ _ _ _ _ _ (from_option id 0 (hours p)));
    [| apply hours_value_int | by rewrite Hh | by rewrite Hcand].
  cbv beta iota zeta. unfold make_printer, printer_params.
  cbn [v_printer_id v_name v_manufacturer v_model v_hours v_nozzle_type v_ams].
  change (match name p with
          | EmptyString => EmptyString
          | String c r => String c r
          end) with (Py.str_or (Some (name p)) "").
  rewrite Hcand, (copy_name _ Hname), Hmf, Hmd, Hh, Hnz.
  rewrite !str_or_some, Hmft, Hmdt, Hnzt.
  by destruct Hams as [-> | ->].
Qed.

Lemma duplicate_selected_printer_copies_witness :
  duplicate_selected_printer 3 (Some 1) sample_session_store =
    Some (showinfo "Duplicated" "Printer duplicated as printer-1-copy-2.",
          {| printers := printers sample_session_store ++
               [{| p_id := 3; printer_id := "printer-1-copy-2";
                   name := "Unit A (Copy)"; manufacturer := Some "Maker";
                   model := Some "Model X"; hours := Some 5;
                   nozzle_type := Some "0.4 mm"; ams := Some 1 |}];
             printers_seq := 3;
             service_logs := service_logs sample_session_store;
             service_logs_seq := 2 |}).
Proof.
  destruct (duplicate_selected_printer_copies 3 sample_session_store
              {| p_id := 1; printer_id := "printer-1"; name := "Unit A";
                 manufacturer := Some "Maker"; model := Some "Model X";
                 hours := Some 5; nozzle_type := Some "0.4 mm"; ams := Some 1 |})
    as (k & Hfree & Hbelow & Hrun).
  - apply (at_rest_run_actions 3 sample_actions empty_store); [|reflexivity].
    apply at_rest_empty.
  - apply list_elem_of_here.
  - unfold int64. simpl. lia.
  - simpl. lia.
  - destruct k as [|[|k]].
    + exfalso. apply Hfree. by apply (bool_decide_unpack _).
    + exact Hrun.
    + exfalso. assert (1 < S (S k))%nat as Hlt by lia.
      specialize (Hbelow 1%nat Hlt). revert Hbelow.
      by apply (bool_decide_eq_false_1 _).
Defined.

(** X17.  Duplicating without a source changes nothing.  With no printer
    selected, or with the id 0, [duplicate_selected_printer] warns that
    nothing is selected; with an id that no stored printer has it reports
    that the selected printer was not found.  In both cases the store is
    left as it was and no identifier is probed, whatever the probe bound. *)
Theorem duplicate_selected_printer_without_source (fuel : nat)
    (selected : option Z) (s : store) :
  (selected = None ∨ selected = Some 0 →
   duplicate_selected_printer fuel selected s =
     Some (showwarning "No selection" "Select a printer to duplicate.", s)) ∧
  (∀ db_id, selected = Some db_id → db_id ≠ 0 → int64 db_id →
     db_id ∉ p_id <$> printers s →
     duplicate_selected_printer fuel selected s =
       Some (showerror "Error" "Selected printer not found.", s)).
Proof.
  split.
  - by intros [-> | ->].
  - intros db_id -> Hne Hid Habsent. unfold duplicate_selected_printer.
    rewrite decide_False by done.
    rewrite get_printer_by_db_id_ok by done.
    by rewrite (filter_absent_key_nil p_id).
Qed.

Lemma duplicate_selected_printer_without_source_witness :
  duplicate_selected_printer 0 (Some 0) store_machine =
    Some (showwarning "No selection" "Select a printer to duplicate.",
          store_machine) ∧
  duplicate_selected_printer 0 (Some 7) store_machine =
    Some (showerror "Error" "Selected printer not found.", store_machine).
Proof.
  split.
  - apply (proj1 (duplicate_selected_printer_without_source 0 (Some 0)
                    store_machine)).
    by right.
  - apply (proj2 (duplicate_selected_printer_without_source 0 (Some 7)
                    store_machine) 7);
      [reflexivity | discriminate | unfold int64; lia
      | by apply (bool_decide_unpack _)].
Defined.

(** ** Reading a selection back *)

Lemma pretty_Z_head (z : Z) :
  ∃ c r, pretty z = String c r ∧ numeral_char c = true.
Proof.
  pose proof (pretty_Z_numeral z) as Hchars.
  pose proof (pretty_Z_nonempty z) as Hne.
  destruct (pretty z) as [|c r]; [done|]. simpl in Hchars.
  apply andb_true_iff in Hchars as [Hc _]. eauto.
Qed.

(** X18.  The item ids the trees are filled with are read back as the
    rowids they were made from: for every 64-bit rowid,
    [get_selected_printer_db_id] on a selection that starts with
    [str(db_id)] returns that id, [get_selected_log_id] on one that starts
    with ["log-" + str(log_id)] returns that id, and [get_selected_log_id]
    takes a printer's item id for no selection. *)
Theorem selection_round_trip (z : Z) (rest : list string) :
  int64 z →
  get_selected_printer_db_id (printer_iid z :: rest) = SelectedId z ∧
  get_selected_log_id (log_iid z :: rest) = SelectedId z ∧
  get_selected_log_id (printer_iid z :: rest) = NoSelection.
Proof.
  intros Hz. split_and!.
  - unfold get_selected_printer_db_id, printer_iid.
    by rewrite int_of_str_pretty.
  - unfold get_selected_log_id, log_iid.
    change ("log-" +:+ pretty z)
      with (String "l" (String "o" (String "g" (String "-" (pretty z))))).
    simpl. by rewrite int_of_str_pretty.
  - unfold get_selected_log_id, printer_iid.
    destruct (pretty_Z_head z) as (c & r & -> & Hc). simpl.
    case_bool_decide as Hl; [|done]. by subst c.
Qed.

Lemma selection_round_trip_witness :
  int64 (-12) ∧
  get_selected_printer_db_id ["-12"] = SelectedId (-12) ∧
  get_selected_log_id ["log--12"; "log-3"] = SelectedId (-12) ∧
  get_selected_log_id ["-12"] = NoSelection.
Proof.
  assert (int64 (-12)) as Hz by (unfold int64; lia).
  split; [done|].
  destruct (selection_round_trip (-12) [] Hz) as (Hprinter & _ & Hother).
  destruct (selection_round_trip (-12) ["log-3"] Hz) as (_ & Hlog & _).
  by split_and!.
Defined.

(** ** What the migration does to a data file *)

Module MigrationFacts.
Import Schema.

Lemma add_column_ok (col : string) (d : sqlval) (t : table) :
  lower col ∉ lower <$> columns t →
  add_column col d t =
    Ok {| columns := columns t ++ [col]; rows := (λ r, r ++ [d]) <$> rows t |}.
Proof. intros Hfree. unfold add_column. by rewrite bool_decide_eq_false_2. Qed.

Lemma add_column_raise (col : string) (d : sqlval) (t : table) :
  lower col ∈ lower <$> columns t →
  add_column col d t = Raise (OperationalError ("duplicate column name: " +:+ col)).
Proof. intros Hdup. unfold add_column. by rewrite bool_decide_eq_true_2. Qed.

Lemma add_column_extends (col : string) (d : sqlval) (t t' : table) :
  add_column col d t = Ok t' → extends t t'.
Proof.
  unfold add_column. case_bool_decide; [done|]. intros [= <-].
  split; simpl; [by apply prefix_app_r|].
  induction (rows t) as [|r rs IH]; csimpl; constructor; [|done].
  by apply prefix_app_r.
Qed.

Lemma extends_refl (t : table) : extends t t.
Proof.
  split; [done|]. induction (rows t); constructor; done.
Qed.

Lemma extends_trans (t1 t2 t3 : table) :
  extends t1 t2 → extends t2 t3 → extends t1 t3.
Proof.
  intros [Hc12 Hr12] [Hc23 Hr23]. split; [by etrans|].
  revert Hr23. generalize (rows t3).
  induction Hr12 as [|r1 r2 rs1 rs2 Hr Hrs IH]; intros rs3 Hr23.
  - inv Hr23. constructor.
  - inv Hr23. constructor; [by etrans | by apply IH].
Qed.

Lemma created_printers (db : database) :
  printers (created db) = Some (printers_table db).
Proof. by destruct db as [[p|] l]. Qed.

Lemma created_service_logs (db : database) :
  ∃ l, service_logs (created db) = Some l ∧
       ∀ l0, service_logs db = Some l0 → l = l0.
Proof.
  destruct db as [p [l|]]; simpl; eexists; split; try done.
  by intros l0 [= <-].
Qed.

Lemma created_both (db : database) :
  ∃ l, created db = {| printers := Some (printers_table db);
                       service_logs := Some l |} ∧
       ∀ l0, service_logs db = Some l0 → l = l0.
Proof.
  destruct (created_service_logs db) as (l & Hl & Hsame). exists l.
  split; [|done]. pose proof (created_printers db) as Hp.
  destruct (created db) as [p' l']. simpl in *. by subst.
Qed.

(** X19.  When [initialize_database] returns normally the store has the
    current schema: the data directory and both tables exist and [printers]
    has the columns [nozzle_type] and [ams]. *)
Theorem initialize_database_establishes_schema (d : disk) :
  fst (initialize_database d) = Ok tt →
  current_schema (snd (initialize_database d)).
Proof.
  unfold initialize_database.
  set (db := from_option id empty_database (database_file d)).
  rewrite <-(SchemaFacts.migrate_created db).
  destruct (created_both db) as (l & -> & _).
  set (p := printers_table db).
  rewrite (SchemaFacts.migrate_both p l). simpl.
  destruct (decide ("nozzle_type" ∈ columns p)) as [Hn|Hn],
           (decide ("ams" ∈ columns p)) as [Ha|Ha].
  - intros _. split; [done|]. by exists {| printers := Some p; service_logs := Some l |}, p, l.
  - destruct (add_column "ams" (Integer 0) p) as [p'|e] eqn:Hadd; [|done].
    intros _. split; [done|].
    apply SchemaFacts.add_column_columns in Hadd.
    exists {| printers := Some p'; service_logs := Some l |}, p', l.
    split_and!; try done; rewrite Hadd; set_solver.
  - destruct (add_column "nozzle_type" Null p) as [p1|e] eqn:Hadd; [|done].
    intros _. split; [done|].
    apply SchemaFacts.add_column_columns in Hadd.
    exists {| printers := Some p1; service_logs := Some l |}, p1, l.
    split_and!; try done; rewrite Hadd; set_solver.
  - destruct (add_column "nozzle_type" Null p) as [p1|e] eqn:Hadd1; [|done].
    destruct (add_column "ams" (Integer 0) p1) as [p2|e] eqn:Hadd2; [|done].
    intros _. split; [done|].
    apply SchemaFacts.add_column_columns in Hadd1, Hadd2.
    exists {| printers := Some p2; service_logs := Some l |}, p2, l.
    split_and!; try done; rewrite Hadd2, Hadd1; set_solver.
Qed.

Lemma initialize_database_establishes_schema_witness :
  fst (initialize_database legacy_disk) = Ok tt ∧
  current_schema migrated_disk.
Proof.
  split; [reflexivity|].
  apply (initialize_database_establishes_schema legacy_disk). reflexivity.
Defined.

(** X20.  The migration loses nothing.  Whatever the data file holds and
    whether or not [initialize_database] returns normally, a [printers]
    table that existed still exists, its columns come first among the
    columns it has afterwards and each of its rows starts with the row it
    was; a [service_logs] table that existed is exactly as it was. *)
Theorem initialize_database_lossless (d : disk) (db : database) :
  database_file d = Some db →
  ∃ db', database_file (snd (initialize_database d)) = Some db' ∧
    (∀ p, printers db = Some p → ∃ p', printers db' = Some p' ∧ extends p p') ∧
    (∀ l, service_logs db = Some l → service_logs db' = Some l).
Proof.
  intros Hfile. unfold initialize_database. rewrite Hfile. simpl.
  rewrite <-(SchemaFacts.migrate_created db).
  destruct (created_both db) as (l & -> & Hlogs).
  assert (∀ p0, printers db = Some p0 → printers_table db = p0) as Htable.
  { intros p0 Hp0. unfold printers_table. by rewrite Hp0. }
  set (p := printers_table db) in *.
  rewrite (SchemaFacts.migrate_both p l). simpl.
  assert (∀ (r : result unit) p',
            extends p p' →
            ∃ db', database_file
                     (snd (let '(r0, db0) :=
                             (r, {| printers := Some p'; service_logs := Some l |})
                           in (r0, {| directory := true;
                                      database_file := Some db0 |}))) = Some db' ∧
              (∀ p0, printers db = Some p0 →
                     ∃ p1, printers db' = Some p1 ∧ extends p0 p1) ∧
              (∀ l0, service_logs db = Some l0 → service_logs db' = Some l0))
    as Hdone.
  { intros r p' Hext. eexists. split; [done|]. simpl. split.
    - intros p0 Hp0. exists p'. split; [done|]. by rewrite <-(Htable p0 Hp0).
    - intros l0 Hl0. by rewrite (Hlogs l0 Hl0). }
  destruct (decide ("nozzle_type" ∈ columns p)) as [Hn|Hn],
           (decide ("ams" ∈ columns p)) as [Ha|Ha].
  - apply Hdone, extends_refl.
  - destruct (add_column "ams" (Integer 0) p) as [p'|e] eqn:Hadd;
      apply Hdone; [by eapply add_column_extends | apply extends_refl].
  - destruct (add_column "nozzle_type" Null p) as [p1|e] eqn:Hadd;
      apply Hdone; [by eapply add_column_extends | apply extends_refl].
  - destruct (add_column "nozzle_type" Null p) as [p1|e] eqn:Hadd1;
      [|apply Hdone, extends_refl].
    apply add_column_extends in Hadd1.
    destruct (add_column "ams" (Integer 0) p1) as [p2|e] eqn:Hadd2;
      apply Hdone; [|done].
    apply add_column_extends in Hadd2. by eapply extends_trans.
Qed.

Lemma initialize_database_lossless_witness :
  ∃ db', database_file (snd (initialize_database legacy_disk)) = Some db' ∧
    (∀ p, printers
            {| printers := Some
                 {| columns := ["id"; "printer_id"; "name"; "manufacturer";
                                "model"; "hours"];
                    rows := [[Integer 1; Text "printer-1"; Text "Printer 1";
                              Text "Maker"; Text "Model X"; Integer 5]] |};
               service_logs := Some {| columns := service_logs_columns;
                                        rows := [] |} |} = Some p →
          ∃ p', printers db' = Some p' ∧ extends p p') ∧
    (∀ l, Some {| columns := service_logs_columns; rows := [] |} = Some l →
          service_logs db' = Some l).
Proof.
  apply (initialize_database_lossless legacy_disk). reflexivity.
Defined.

(** X21.  [initialize_database] returns normally exactly when neither
    later column clashes by case: it raises just when the [printers] table
    has a column that is [nozzle_type] or [ams] in another spelling of upper
    and lower case, which the set of names from [PRAGMA table_info] does not
    contain but SQLite refuses to add again. *)
Theorem initialize_database_succeeds_iff (d : disk) :
  let p := printers_table (from_option id empty_database (database_file d)) in
  fst (initialize_database d) = Ok tt ↔
  ¬ case_clash "nozzle_type" p ∧ ¬ case_clash "ams" p.
Proof.
  unfold initialize_database.
  set (db := from_option id empty_database (database_file d)).
  rewrite <-(SchemaFacts.migrate_created db).
  destruct (created_both db) as (l & -> & _).
  set (p := printers_table db). simpl.
  rewrite (SchemaFacts.migrate_both p l). simpl. unfold case_clash.
  assert (∀ cols : list string,
            lower "ams" ∈ lower <$> cols ++ ["nozzle_type"] ↔
            lower "ams" ∈ lower <$> cols) as Hams.
  { intros cols. rewrite fmap_app, elem_of_app. split; [|by left].
    intros [?|[=]%list_elem_of_singleton]. done. }
  destruct (decide ("nozzle_type" ∈ columns p)) as [Hn|Hn],
           (decide ("ams" ∈ columns p)) as [Ha|Ha].
  - simpl. split; [|done]. intros _. tauto.
  - destruct (decide (lower "ams" ∈ lower <$> columns p)) as [Hdup|Hfree].
    + rewrite add_column_raise by done. simpl. split; [done|]. tauto.
    + rewrite add_column_ok by done. simpl. split; [|done]. tauto.
  - destruct (decide (lower "nozzle_type" ∈ lower <$> columns p)) as [Hdup|Hfree].
    + rewrite add_column_raise by done. simpl. split; [done|]. tauto.
    + rewrite add_column_ok by done. simpl. split; [|done]. tauto.
  - destruct (decide (lower "nozzle_type" ∈ lower <$> columns p)) as [Hdup|Hfree].
    + rewrite add_column_raise by done. simpl. split; [done|]. tauto.
    + rewrite add_column_ok by done.
      destruct (decide (lower "ams" ∈ lower <$> columns p)) as [Hdup2|Hfree2].
      * rewrite add_column_raise by (simpl; by apply Hams).
        simpl. split; [done|]. tauto.
      * rewrite add_column_ok by (simpl; by rewrite Hams).
        simpl. split; [|done]. tauto.
Qed.

Lemma initialize_database_succeeds_iff_witness :
  fst (initialize_database legacy_disk) = Ok tt ∧
  fst (initialize_database capitals_disk) ≠ Ok tt.
Proof.
  split.
  - apply (initialize_database_succeeds_iff legacy_disk).
    unfold case_clash. split; by apply (bool_decide_unpack _).
  - intros Hok. apply (initialize_database_succeeds_iff capitals_disk) in Hok.
    destruct Hok as [_ Hams]. apply Hams.
    unfold case_clash. by apply (bool_decide_unpack _).
Defined.

End MigrationFacts.

(** ** Listing what was inserted *)

Lemma insert_forms_printer_ids (fs : list printer_form) (s : store) :
  NoDup (Py.strip ∘ f_printer_id <$> fs) →
  (∀ f, f ∈ fs → hours_fit f) →
  (∀ f, f ∈ fs → Py.strip (f_printer_id f) ∉ printer_id <$> printers s) →
  printer_id <$> printers (insert_forms fs s) =
    (printer_id <$> printers s) ++ (Py.strip ∘ f_printer_id <$> fs).
Proof.
  revert s. induction fs as [|f fs IH]; intros s Hdup Hfit Hfree; simpl.
  - by rewrite app_nil_r.
  - apply NoDup_cons in Hdup as [Hf Hdup].
    destruct (Hfit f) as (h & Hh & Hrange); [by left|].
    change (insert_forms (f :: fs) s)
      with (insert_forms fs (snd (insert_form f s))).
    unfold insert_form.
    rewrite (insert_printer_free _ _ _ _ _ _ _ _ h);
      [| done | done | apply Hfree; by left].
    rewrite IH; simpl.
    + rewrite fmap_app. simpl. by rewrite <-app_assoc.
    + done.
    + intros g Hg. apply Hfit. by right.
    + intros g Hg. rewrite fmap_app. simpl.
      intros [Hin | Heq%list_elem_of_singleton]%elem_of_app.
      * by apply (Hfree g); [right|].
      * apply Hf. apply list_elem_of_fmap. exists g. by split.
Qed.

(** X22.  Whatever printers are inserted under pairwise distinct trimmed
    identifiers (none of them stored yet, hours that parse and fit),
    [fetch_printers] afterwards lists, under each of its three orders, the
    printers stored before and exactly one printer for each insert: its
    identifiers are those identifiers, independently of the order of the
    inserts. *)
Theorem fetch_printers_after_inserts (sort_hours : option string)
    (fs fs' : list printer_form) (s : store) :
  NoDup (Py.strip ∘ f_printer_id <$> fs) →
  (∀ f, f ∈ fs → hours_fit f) →
  (∀ f, f ∈ fs → Py.strip (f_printer_id f) ∉ printer_id <$> printers s) →
  fs' ≡ₚ fs →
  printer_id <$> fetch_printers sort_hours (insert_forms fs s)
    ≡ₚ (printer_id <$> printers s) ++ (Py.strip ∘ f_printer_id <$> fs) ∧
  printer_id <$> fetch_printers sort_hours (insert_forms fs' s)
    ≡ₚ printer_id <$> fetch_printers sort_hours (insert_forms fs s).
Proof.
  intros Hdup Hfit Hfree Hperm.
  assert (∀ s0, printer_id <$> fetch_printers sort_hours s0
                  ≡ₚ printer_id <$> printers s0) as Hfetch.
  { intros s0. unfold fetch_printers.
    repeat case_decide; by rewrite merge_sort_Permutation. }
  rewrite !Hfetch. rewrite (insert_forms_printer_ids fs) by done.
  split; [done|].
  rewrite (insert_forms_printer_ids fs').
  - by rewrite Hperm.
  - by rewrite Hperm.
  - intros f Hf. apply Hfit. by rewrite <-Hperm.
  - intros f Hf. apply Hfree. by rewrite <-Hperm.
Qed.

Lemma fetch_printers_after_inserts_witness :
  printer_id <$> fetch_printers (Some "asc") (insert_forms sample_forms empty_store)
    ≡ₚ ["printer-b"; "printer-a"] ∧
  printer_id <$> fetch_printers (Some "asc")
                   (insert_forms (reverse sample_forms) empty_store)
    ≡ₚ printer_id <$> fetch_printers (Some "asc")
                        (insert_forms sample_forms empty_store).
Proof.
  apply (fetch_printers_after_inserts (Some "asc") sample_forms
           (reverse sample_forms) empty_store).
  - by apply (bool_decide_unpack _).
  - intros f [->|[->|[]%elem_of_nil]%elem_of_cons]%elem_of_cons.
    + exists 3. split; [reflexivity | unfold int64; lia].
    + exists 0. split; [reflexivity | unfold int64; lia].
  - intros f _. apply not_elem_of_nil.
  - apply reverse_Permutation.
Defined.

(** X23.  The operations themselves do not ask for non-empty text.  On
    every store that has no printer with the empty identifier,
    [insert_printer] with an identifier that is blank (empty after
    stripping) returns normally and stores the empty string as [printer_id];
    and [insert_log] with a blank note returns normally and stores the empty
    note.  Only the caller [_add_log] keeps blank notes out. *)
Theorem blank_text_is_stored
    (now pid nm mf md text : string) (hrs : Py.value) (nz : option string)
    (a : bool) (db_id : Z) (s : store) :
  (Py.strip pid = "" → "" ∉ printer_id <$> printers s →
   (∃ h, hours_value hrs = Ok h ∧ int64 h) →
   ∃ row, insert_printer pid nm mf md hrs nz a s =
            (Ok tt,
             {| printers := printers s ++ [row];
                printers_seq := p_id row;
                service_logs := service_logs s;
                service_logs_seq := service_logs_seq s |}) ∧
          printer_id row = "") ∧
  (Py.strip text = "" → int64 db_id →
   ∃ l, insert_log now db_id text s =
          (Ok tt,
           {| printers := printers s;
              printers_seq := printers_seq s;
              service_logs := service_logs s ++ [l];
              service_logs_seq := l_id l |}) ∧
        note l = "" ∧
        _add_log now db_id text s = (None, s)).
Proof.
  split.
  - intros Hblank Hfree (h & Hh & Hrange).
    rewrite (insert_printer_free _ _ _ _ _ _ _ _ h);
      [| done | done | by rewrite Hblank].
    eexists (make_printer _ _). split; [done|]. simpl. done.
  - intros Hblank Hid. unfold insert_log, with_connection, sql_insert_log.
    rewrite bind_int_ok by done. simpl. rewrite Hblank.
    eexists {| l_id := _ |}. split_and!; [done | done |].
    unfold _add_log. by rewrite decide_True.
Qed.

Lemma blank_text_is_stored_witness :
  (∃ row, insert_printer "   " "" "" "" (Py.Str "") None false store_machine =
            (Ok tt,
             {| printers := printers store_machine ++ [row];
                printers_seq := p_id row;
                service_logs := [];
                service_logs_seq := 0 |}) ∧
          printer_id row = "") ∧
  ∃ l, insert_log "2024-05-01 10:00:00" 1 "  " store_machine =
         (Ok tt,
          {| printers := printers store_machine;
             printers_seq := 1;
             service_logs := [l];
             service_logs_seq := l_id l |}) ∧
       note l = "" ∧
       _add_log "2024-05-01 10:00:00" 1 "  " store_machine = (None, store_machine).
Proof.
  destruct (blank_text_is_stored "2024-05-01 10:00:00" "   " "" "" "" "  "
              (Py.Str "") None false 1 store_machine) as [Hprinter Hlog].
  split.
  - apply Hprinter; [reflexivity | by apply (bool_decide_unpack _) |].
    exists 0. split; [reflexivity | unfold int64; lia].
  - apply Hlog; [reflexivity | unfold int64; lia].
Defined.
